(** * mailgun-validate-email: the validator client, embedded and verified

    The development embeds the fetch-based ES-module client
    ([createValidator], [validator], [validateEmail]) and the
    request-based CommonJS client of [src/index.js], over a small model
    of the JavaScript values the code touches: property reads and
    writes, truthiness, string conversion, thrown values, the abort
    timer and the callback/promise delivery. *)

From Stdlib Require Import ZArith Ascii String List Bool Lia DecimalString.
From stdpp Require Import gmap strings.
Import ListNotations.
Local Open Scope Z_scope.
Local Open Scope string_scope.

(** ** JavaScript values *)

(** The prototype an object inherits from.  Only the data properties the
    client reads are inherited: [Error.prototype.name] and
    [Error.prototype.message]. *)
Inductive proto :=
| ObjectProto
| ArrayProto
| ErrorProto (name : string).

(** Values in reach of the client: what [JSON.parse] produces (arrays are
    objects with index keys), error objects, and [undefined].  Objects
    hold data only.  Numbers are the integral ones; the code does no
    arithmetic on them. *)
#[warnings="-register-all"]
Inductive value :=
| VUndefined
| VNull
| VBool (b : bool)
| VNum (n : Z)
| VStr (s : string)
| VObj (p : proto) (props : gmap string value).

(** A completion: normal return, or a thrown value.  An awaited promise
    settles to one. *)
Inductive completion (A : Type) :=
| Normal (a : A)
| Throw (e : value).
Arguments Normal {A} a.
Arguments Throw {A} e.

Definition typeof (v : value) : string :=
  match v with
  | VUndefined => "undefined"
  | VNull => "object"
  | VBool _ => "boolean"
  | VNum _ => "number"
  | VStr _ => "string"
  | VObj _ _ => "object"
  end.

(** [Boolean(v)]: what [!v] and [v || w] test. *)
Definition truthy (v : value) : bool :=
  match v with
  | VUndefined | VNull => false
  | VBool b => b
  | VNum n => negb (Z.eqb n 0)
  | VStr s => negb (String.eqb s "")
  | VObj _ _ => true
  end.

(** [v === 'literal']. *)
Definition strict_equals_str (v : value) (s : string) : bool :=
  match v with
  | VStr s' => String.eqb s' s
  | _ => false
  end.

(** [Number.MAX_SAFE_INTEGER]: up to it, in absolute value, every
    integer is a number of its own and prints as its decimal digits. *)
Definition MAX_SAFE_INTEGER : Z := 9007199254740991.

Definition proto_lookup (p : proto) (k : string) : value :=
  match p with
  | ErrorProto name =>
      if String.eqb k "name" then VStr name
      else if String.eqb k "message" then VStr ""
      else VUndefined
  | _ => VUndefined
  end.

(** ** Effects of one call

    Each call owns its timer and its abort controller (nothing is shared
    between calls), so the state is per call. *)

Inductive timer_state :=
| TimerIdle
| TimerArmed (delay : Z)
| TimerFired
| TimerCleared.

Record request := {
  req_url : string;
  req_method : string;
  req_headers : list (string * string)
}.

(** The options object the legacy client hands to [request]. *)
Record request_options := {
  opt_url : string;
  opt_method : string;
  opt_timeout : Z;
  opt_qs_address : string;
  opt_auth_username : string;
  opt_auth_password : string
}.

(** How the caller's callback is invoked: [callback(null, result)] or
    [callback(error)]. *)
Inductive cb_call :=
| CallResult (result : value)
| CallError (error : value).

Inductive event :=
| EvSetTimeout (ms : Z)
| EvFetch (req : request)
| EvRequest (o : request_options)
| EvAbort
| EvClearTimeout
| EvCallback (c : cb_call)
| EvConsoleLog (line : string)
| EvUnhandled (e : value).

Record call_state := {
  timer : timer_state;
  aborted : bool;
  trace : list event
}.

Definition initial : call_state :=
  {| timer := TimerIdle; aborted := false; trace := [] |}.

Definition record_event (ev : event) (s : call_state) : call_state :=
  {| timer := timer s; aborted := aborted s; trace := trace s ++ [ev] |}.

(** A computation of the async function: it runs on the call's state and
    settles with a completion, or never settles ([None]). *)
Definition M (A : Type) : Type := call_state -> option (completion A) * call_state.

Definition ret {A} (a : A) : M A := fun s => (Some (Normal a), s).

Definition throw {A} (e : value) : M A := fun s => (Some (Throw e), s).

Definition lift {A} (c : completion A) : M A := fun s => (Some c, s).

(** [await p], for a promise [p] given by its settlement. *)
Definition await {A} (p : option (completion A)) : M A := fun s => (p, s).

Definition bind {A B} (m : M A) (k : A -> M B) : M B :=
  fun s =>
    match m s with
    | (Some (Normal a), s') => k a s'
    | (Some (Throw e), s') => (Some (Throw e), s')
    | (None, s') => (None, s')
    end.

(** [try { body } catch (e) { handler e }]. *)
Definition try_catch {A} (body : M A) (handler : value -> M A) : M A :=
  fun s =>
    match body s with
    | (Some (Throw e), s') => handler e s'
    | r => r
    end.

Declare Scope js_scope.
Delimit Scope js_scope with js.
Notation "'let*' x ':=' m 'in' k" := (bind m (fun x => k))
  (at level 10, x name, m at level 100, k at level 200) : js_scope.
Notation "'do' m 'then' k" := (bind m (fun _ => k))
  (at level 10, m at level 100, k at level 200) : js_scope.
Local Open Scope js_scope.

(** [setTimeout(() => controller.abort(), ms)]. *)
Definition setTimeout (ms : Z) : M unit :=
  fun s =>
    (Some (Normal tt),
     {| timer := TimerArmed ms; aborted := aborted s;
        trace := trace s ++ [EvSetTimeout ms] |}).

(** [clearTimeout(timeout)]: disarms an armed timer; on a timer that has
    fired it does nothing. *)
Definition clearTimeout : M unit :=
  fun s =>
    (Some (Normal tt),
     {| timer := match timer s with
                 | TimerArmed _ => TimerCleared
                 | t => t
                 end;
        aborted := aborted s;
        trace := trace s ++ [EvClearTimeout] |}).

(** ** The transport *)

(** A response as [fetch] resolves with it: the head has arrived, the
    body is still to be read.  [ok] is node-fetch's getter (status
    200-299); [json] is how the promise of [response.json()] settles:
    with the parsed body, with what the parse throws, or never ([None],
    a body that does not end). *)
Record Response := {
  status : Z;
  body : string;
  json : option (completion value)
}.

Definition ok (r : Response) : bool :=
  (200 <=? status r)%Z && (status r <? 300)%Z.

(** What the transport does with a request when left alone: settle after
    [latency] milliseconds (resolve with a response, or reject), or never
    answer. *)
Inductive fetch_behaviour :=
| Settles (latency : Z) (c : completion Response)
| NoResponse.

Definition TypeError (message : string) : value :=
  VObj (ErrorProto "TypeError") {[ "message" := VStr message ]}.

(** node-fetch's rejection of an aborted request. *)
Definition AbortError : value :=
  VObj (ErrorProto "AbortError")
       (<["type" := VStr "aborted"]> {[ "message" := VStr "The operation was aborted." ]}).

(** [await fetch(url, { ..., signal: controller.signal })]: the transport
    races the call's timer.  A response that has not arrived when the
    timer expires loses: the timer callback aborts the controller and the
    transport rejects with [AbortError]. *)
Definition await_fetch (fetch : request -> fetch_behaviour) (req : request) : M Response :=
  fun s =>
    let s1 := record_event (EvFetch req) s in
    let expire :=
      (Some (Throw AbortError),
       {| timer := TimerFired; aborted := true; trace := trace s1 ++ [EvAbort] |}) in
    match timer s1, fetch req with
    | TimerArmed d, Settles latency c =>
        if (latency <? d)%Z then (Some c, s1) else expire
    | TimerArmed d, NoResponse => expire
    | _, Settles _ c => (Some c, s1)
    | _, NoResponse => (None, s1)
    end.

(** ** Property access *)

(** [v.k] for the property names the client reads ([name], [code],
    [message], [result]): own properties first, then the prototype; on a
    primitive these names are undefined, on [null] and [undefined] the
    read throws. *)
Definition get_prop (v : value) (k : string) : completion value :=
  match v with
  | VUndefined =>
      Throw (TypeError ("Cannot read properties of undefined (reading '" ++ k ++ "')"))
  | VNull =>
      Throw (TypeError ("Cannot read properties of null (reading '" ++ k ++ "')"))
  | VObj p props => Normal (default (proto_lookup p k) (props !! k))
  | _ => Normal VUndefined
  end.

(** A [callback(error, result)] supplied by the caller: given the calls it
    has already received and the present one, it returns or throws.  In
    a promise chain a handler that returns a promise which rejects with
    [e] counts as throwing [e]: the chain treats the two alike. *)
Definition callback := list cb_call -> cb_call -> completion value.

(** A second argument of [validator]: a function, or any other value. *)
Inductive arg :=
| ArgValue (v : value)
| ArgFunction (f : callback).

Definition typeof_arg (a : arg) : string :=
  match a with
  | ArgValue v => typeof v
  | ArgFunction _ => "function"
  end.

Fixpoint calls_of (t : list event) : list cb_call :=
  match t with
  | [] => []
  | EvCallback c :: t' => c :: calls_of t'
  | _ :: t' => calls_of t'
  end.

(** [callee(...)]: calling a value that is not a function throws. *)
Definition invoke (callee : string) (a : arg) (c : cb_call) (s : call_state)
  : completion value * call_state :=
  match a with
  | ArgFunction f => (f (calls_of (trace s)) c, record_event (EvCallback c) s)
  | ArgValue _ => (Throw (TypeError (callee ++ " is not a function")), s)
  end.

(** What [validator] hands back: the promise of [validateEmail] (with its
    settlement), or nothing. *)
Inductive returned :=
| ReturnsPromise (p : option (completion value))
| ReturnsUndefined.

Record URL := {
  href : string;
  searchParams : list (string * string)
}.

Definition new_URL (s : string) : URL := {| href := s; searchParams := [] |}.

Definition searchParams_append (u : URL) (k v : string) : URL :=
  {| href := href u; searchParams := searchParams u ++ [(k, v)] |}.

Definition API_BASE_URL : string := "https://api.mailgun.net/v3/address/validate".
Definition TIMEOUT_MS : Z := 4000.

(** ** The fetch-based client *)

Section Client.

(** The platform: how numbers beyond the safe integers print, string
    conversion of objects ([None] for an object that cannot be converted
    to a primitive, as one whose own [toString] and [valueOf] are data),
    [Buffer]'s base64, the serialisation of a [URL], and the transport
    behind [fetch]. *)
Variable Number_toString_large : Z -> string.
Variable Object_toString : proto -> gmap string value -> option string.
Variable base64 : string -> string.
Variable URL_toString : URL -> string.
Variable fetch : request -> fetch_behaviour.

(** [String(n)] for an integral number: its decimal digits as long as it
    is a safe integer, the platform's rendering beyond. *)
Definition Number_toString (n : Z) : string :=
  if (Z.abs n <=? MAX_SAFE_INTEGER)%Z then NilZero.string_of_int (Z.to_int n)
  else Number_toString_large n.

(** [String(v)]: total on primitives; on an object that cannot be
    converted it throws. *)
Definition ToString (v : value) : completion string :=
  match v with
  | VUndefined => Normal "undefined"
  | VNull => Normal "null"
  | VBool true => Normal "true"
  | VBool false => Normal "false"
  | VNum n => Normal (Number_toString n)
  | VStr s => Normal s
  | VObj p props =>
      match Object_toString p props with
      | Some s => Normal s
      | None => Throw (TypeError "Cannot convert object to primitive value")
      end
  end.

(** [v.k = x] in strict mode (the client is an ES module): an object
    takes the property, anything else throws. *)
Definition set_prop (v : value) (k : string) (x : value) : completion value :=
  match v with
  | VObj p props => Normal (VObj p (<[k := x]> props))
  | VUndefined =>
      Throw (TypeError ("Cannot set properties of undefined (setting '" ++ k ++ "')"))
  | VNull =>
      Throw (TypeError ("Cannot set properties of null (setting '" ++ k ++ "')"))
  | VBool b =>
      Throw (TypeError ("Cannot create property '" ++ k ++ "' on boolean '"
                          ++ (if b then "true" else "false") ++ "'"))
  | VNum n =>
      Throw (TypeError ("Cannot create property '" ++ k ++ "' on number '"
                          ++ Number_toString n ++ "'"))
  | VStr s =>
      Throw (TypeError ("Cannot create property '" ++ k ++ "' on string '" ++ s ++ "'"))
  end.

(** [new Error(message)]: the message is converted to a string, and the
    conversion can throw. *)
Definition new_Error (message : value) : completion value :=
  match message with
  | VUndefined => Normal (VObj (ErrorProto "Error") ∅)
  | _ =>
      match ToString message with
      | Normal text => Normal (VObj (ErrorProto "Error") {[ "message" := VStr text ]})
      | Throw e => Throw e
      end
  end.

Definition validateEmail (authHeader : string) (email : string) : M value :=
  let url := searchParams_append (new_URL API_BASE_URL) "address" email in
  do setTimeout TIMEOUT_MS then
  try_catch
    (let* response :=
       await_fetch fetch
         {| req_url := URL_toString url;
            req_method := "GET";
            req_headers := [("Authorization", authHeader);
                            ("Accept", "application/json")] |} in
     do clearTimeout then
     if negb (ok response) then
       let errorMessage := VStr ("HTTP error! status: " ++ Number_toString (status response)) in
       let* errorMessage :=
         try_catch
           (let* errorData := await (json response) in
            let* message := lift (get_prop errorData "message") in
            ret (if truthy message then message else errorMessage))
           (fun _ => ret errorMessage) in
       let* error := lift (new_Error errorMessage) in
       let* error := lift (set_prop error "status" (VNum (status response))) in
       let* error :=
         lift (set_prop error "code"
                 (VStr (if (status response =? 401)%Z then "EAUTH" else "EAPI"))) in
       throw error
     else
       let* result := await (json response) in
       let* r := lift (get_prop result "result") in
       let* result :=
         lift (set_prop result "is_valid" (VBool (strict_equals_str r "deliverable"))) in
       ret result)
    (fun error =>
       do clearTimeout then
       let* name := lift (get_prop error "name") in
       if strict_equals_str name "AbortError" then
         let* timeoutError := lift (new_Error (VStr "Request timed out")) in
         let* timeoutError := lift (set_prop timeoutError "code" (VStr "ETIMEDOUT")) in
         throw timeoutError
       else
         let* code := lift (get_prop error "code") in
         if negb (truthy code) then
           let* error := lift (set_prop error "code" (VStr "EUNKNOWN")) in
           throw error
         else throw error).

(** [validator(email, callback)]: without a function as [callback] the
    promise of [validateEmail] is returned; with one,
    [validateEmail(email).then(result => callback(null, result)).catch(callback)]. *)
Definition validator (authHeader : string) (email : string) (callback : arg)
  : returned * call_state :=
  if negb (String.eqb (typeof_arg callback) "function") then
    let '(p, s) := validateEmail authHeader email initial in
    (ReturnsPromise p, s)
  else
    let '(p1, s1) := validateEmail authHeader email initial in
    let '(p2, s2) :=
      match p1 with
      | Some (Normal result) =>
          let '(c, s) := invoke "callback" callback (CallResult result) s1 in (Some c, s)
      | _ => (p1, s1)
      end in
    let s3 :=
      match p2 with
      | Some (Throw e) =>
          match invoke "callback" callback (CallError e) s2 with
          | (Throw e', s) => record_event (EvUnhandled e') s
          | (Normal _, s) => s
          end
      | _ => s2
      end in
    (ReturnsUndefined, s3).

(** [createValidator(apiKey)]: the function declares one parameter; a
    second argument passed by the caller is bound to nothing. *)
Definition createValidator (apiKey : string) (_options : value)
  : string -> arg -> returned * call_state :=
  let authHeader := "Basic " ++ base64 ("api:" ++ apiKey) in
  validator authHeader.

End Client.

Arguments Number_toString : simpl never.

(** ** The request-based legacy client ([src/index.js]) *)

Module Legacy.

(** What [request] passes to its completion function: [err], and the
    body of [res.request.response]. *)
Record request_completion := {
  err : value;
  response_body : string
}.

Section Request.

Variable JSON_parse : string -> completion value.
Variable request : request_options -> request_completion.

(** An exception leaving the completion function is uncaught. *)
Definition uncaught (r : completion value * call_state) : call_state :=
  match r with
  | (Throw e, s) => record_event (EvUnhandled e) s
  | (Normal _, s) => s
  end.

(** The function given to [request] (lines 27-38). *)
Definition on_completion (cb : arg) (r : request_completion) (s : call_state)
  : call_state :=
  if truthy (err r) then
    uncaught (invoke "cb" cb (CallError (err r)) s)
  else
    let '(c, s1) :=
      match JSON_parse (response_body r) with
      | Normal result => invoke "cb" cb (CallResult result) s
      | Throw e => (Throw e, s)
      end in
    match c with
    | Normal _ => s1
    | Throw e =>
        let s2 :=
          record_event
            (EvConsoleLog ("Unable to Parse MailGun Response: " ++ response_body r)) s1 in
        uncaught (invoke "cb" cb (CallError e) s2)
    end.

(** The body of [validator] once [cb] is not [undefined]. *)
Definition send (apiKey : string) (email : string) (cb : arg) : call_state :=
  let options :=
    {| opt_url := "https://api.mailgun.net/v2/address/validate";
       opt_method := "GET";
       opt_timeout := 4000;
       opt_qs_address := email;
       opt_auth_username := "api";
       opt_auth_password := apiKey |} in
  on_completion cb (request options) (record_event (EvRequest options) initial).

(** [function (err, result) { err ? reject(err) : resolve(result) }]. *)
Definition settle : callback :=
  fun _ c => Normal VUndefined.

Definition settlement (c : cb_call) : completion value :=
  match c with
  | CallResult result => Normal result
  | CallError e => if truthy e then Throw e else Normal VUndefined
  end.

(** [validator(email, cb)].  [this_validator] tells whether
    [this.validator] is this function at the call (the validator called
    as the [validator] method of an object) or is undefined (the
    validator called as a plain function). *)
Definition validator (this_validator : bool) (apiKey : string) (email : string) (cb : arg)
  : returned * call_state :=
  match cb with
  | ArgValue VUndefined =>
      if this_validator then
        let s := send apiKey email (ArgFunction settle) in
        (ReturnsPromise (option_map settlement (head (calls_of (trace s)))), s)
      else
        (ReturnsPromise (Some (Throw (TypeError "func is not a function"))), initial)
  | _ => (ReturnsUndefined, send apiKey email cb)
  end.

End Request.

End Legacy.

(** ** Vocabulary of the statements *)

(** The one request a call sends. *)
Definition outbound (URL_toString : URL -> string) (authHeader email : string) : request :=
  {| req_url := URL_toString (searchParams_append (new_URL API_BASE_URL) "address" email);
     req_method := "GET";
     req_headers := [("Authorization", authHeader); ("Accept", "application/json")] |}.

(** The transport answers before the timer of [TIMEOUT_MS] expires. *)
Definition responds_in_time (b : fetch_behaviour) : bool :=
  match b with
  | Settles latency _ => (latency <? TIMEOUT_MS)%Z
  | NoResponse => false
  end.

(** The callback invocation that hands over a settlement. *)
Definition deliver (c : completion value) : cb_call :=
  match c with
  | Normal result => CallResult result
  | Throw e => CallError e
  end.

Definition is_console_log (ev : event) : bool :=
  match ev with
  | EvConsoleLog _ => true
  | _ => false
  end.

Definition is_callback (ev : event) : bool :=
  match ev with
  | EvCallback _ | EvUnhandled _ => true
  | _ => false
  end.

(** The message the error of a non-2xx response is to have, once the
    error body has been read ([None] while it has not): the [message]
    field of the parsed error body, converted to a string, when that
    field is truthy, the generic message in every other case. *)
Definition expected_message (Number_toString_large : Z -> string)
    (Object_toString : proto -> gmap string value -> option string)
    (r : Response) : option (completion string) :=
  let generic := "HTTP error! status: " ++ Number_toString Number_toString_large (status r) in
  match json r with
  | None => None
  | Some (Normal data) =>
      match get_prop data "message" with
      | Normal message =>
          if truthy message
          then Some (ToString Number_toString_large Object_toString message)
          else Some (Normal generic)
      | Throw _ => Some (Normal generic)
      end
  | Some (Throw _) => Some (Normal generic)
  end.

(** A sample platform and sample transports, for closed instances. *)
Module Sample.

(** No instance below prints a number beyond the safe integers. *)
Definition Number_toString_large (n : Z) : string := "1e+21".

(** Plain objects print as [[object Object]]; one with a [toString] of
    its own, which is data, cannot be converted. *)
Definition Object_toString (p : proto) (props : gmap string value) : option string :=
  if bool_decide (is_Some (props !! "toString")) then None
  else Some "[object Object]".

Definition encode (s : string) : string := s.

(** [s] between double quotes, for JSON texts. *)
Definition quoted (s : string) : string :=
  String "034"%char s ++ String "034"%char "".

Definition URL_toString (u : URL) : string :=
  href u ++ "?" ++ String.concat "&" (map (fun kv => fst kv ++ "=" ++ snd kv) (searchParams u)).

Definition answers (latency : Z) (r : Response) (req : request) : fetch_behaviour :=
  Settles latency (Normal r).

Definition fails (latency : Z) (e : value) (req : request) : fetch_behaviour :=
  Settles latency (Throw e).

Definition silent (req : request) : fetch_behaviour := NoResponse.

Definition deliverable : Response :=
  {| status := 200;
     body := "{" ++ quoted "address" ++ ":" ++ quoted "test@example.com" ++ ","
                 ++ quoted "result" ++ ":" ++ quoted "deliverable" ++ ","
                 ++ quoted "is_valid" ++ ":false}";
     json := Some (Normal (VObj ObjectProto
                       (<["address" := VStr "test@example.com"]>
                          (<["result" := VStr "deliverable"]>
                             {[ "is_valid" := VBool false ]})))) |}.

Definition server_error : Response :=
  {| status := 500;
     body := "{" ++ quoted "message" ++ ":" ++ quoted "Internal server error" ++ "}";
     json := Some (Normal (VObj ObjectProto {[ "message" := VStr "Internal server error" ]})) |}.

Definition error_without_message : Response :=
  {| status := 500;
     body := "{}";
     json := Some (Normal (VObj ObjectProto ∅)) |}.

Definition error_with_empty_message : Response :=
  {| status := 500;
     body := "{" ++ quoted "message" ++ ":" ++ quoted "" ++ "}";
     json := Some (Normal (VObj ObjectProto {[ "message" := VStr "" ]})) |}.

(** An error answer whose body never ends. *)
Definition endless_error : Response :=
  {| status := 500; body := ""; json := None |}.

(** An error body whose [message] is an object with a [toString] of its
    own. *)
Definition error_with_object_message : Response :=
  {| status := 500;
     body := "{" ++ quoted "message" ++ ":{" ++ quoted "toString" ++ ":0}}";
     json := Some (Normal (VObj ObjectProto
                             {[ "message" := VObj ObjectProto {[ "toString" := VNum 0 ]} ]})) |}.

Definition forbidden : Response :=
  {| status := 403;
     body := "{" ++ quoted "message" ++ ":" ++ quoted "Forbidden" ++ "}";
     json := Some (Normal (VObj ObjectProto {[ "message" := VStr "Forbidden" ]})) |}.

Definition SyntaxError : value :=
  VObj (ErrorProto "SyntaxError")
       {[ "message" := VStr "Unexpected token < in JSON at position 0" ]}.

Definition gateway_page : Response :=
  {| status := 200;
     body := "<html>502 Bad Gateway</html>";
     json := Some (Throw SyntaxError) |}.

Definition network_error : value :=
  VObj (ErrorProto "Error") {[ "message" := VStr "Network error" ]}.

Definition connection_refused : value :=
  VObj (ErrorProto "FetchError")
       (<["code" := VStr "ECONNREFUSED"]> {[ "message" := VStr "connect ECONNREFUSED" ]}).

(** A well-behaved callback, and one that throws when handed a result. *)
Definition quiet : callback := fun _ _ => Normal VUndefined.

Definition boom : value :=
  VObj (ErrorProto "Error") {[ "message" := VStr "boom" ]}.

Definition throws_on_result : callback :=
  fun _ c =>
    match c with
    | CallResult _ => Throw boom
    | CallError _ => Normal VUndefined
    end.

Definition authHeader : string := "Basic " ++ encode "api:key".

Definition options : value :=
  VObj ObjectProto (<["timeout" := VNum 1]> {[ "providerLookup" := VBool true ]}).

(** [JSON.parse] of the legacy client on the sample bodies. *)
Definition JSON_parse (s : string) : completion value :=
  if String.eqb s (body gateway_page) then Throw SyntaxError
  else if String.eqb s (body deliverable) then default (Throw SyntaxError) (json deliverable)
  else Throw SyntaxError.

Definition request (o : request_options) : Legacy.request_completion :=
  {| Legacy.err := VNull; Legacy.response_body := body gateway_page |}.

End Sample.

(** ** Vocabulary of the further statements *)

Definition is_object (v : value) : bool :=
  match v with
  | VObj _ _ => true
  | _ => false
  end.

Definition is_fetch (ev : event) : bool :=
  match ev with
  | EvFetch _ => true
  | _ => false
  end.

Definition is_request (ev : event) : bool :=
  match ev with
  | EvRequest _ => true
  | _ => false
  end.

(** The value the transport makes the [try] block throw, if any: the
    rejection of [fetch], or what [response.json()] throws on a 2xx
    answer. *)
Definition thrown_by (b : fetch_behaviour) : option value :=
  match b with
  | Settles _ (Throw e) => Some e
  | Settles _ (Normal r) =>
      if ok r then
        match json r with
        | Some (Throw e) => Some e
        | _ => None
        end
      else None
  | NoResponse => None
  end.

(** A callback that returns normally whenever it is called. *)
Definition returns_normally (f : callback) : Prop :=
  forall history c, exists v, f history c = Normal v.

(** The events that follow an invocation of the callback which is the
    last thing its caller does: nothing, or the escaping exception. *)
Definition escaping (c : completion value) : list event :=
  match c with
  | Throw e => [EvUnhandled e]
  | Normal _ => []
  end.

(** The options the legacy client sends for a key and an address. *)
Definition legacy_options (apiKey email : string) : request_options :=
  {| opt_url := "https://api.mailgun.net/v2/address/validate";
     opt_method := "GET";
     opt_timeout := 4000;
     opt_qs_address := email;
     opt_auth_username := "api";
     opt_auth_password := apiKey |}.

(** ** The helper of the test suite *)

Module Tests.

Section Assert.

(** The platform: how large numbers print, and the [AssertionError]
    values of node's [assert]: of [assert(false, message)], and of
    [assert.strictEqual(actual, expected)] on two different strings. *)
Variable Number_toString_large : Z -> string.
Variable assert_fail : string -> value.
Variable strictEqual_fail : string -> string -> value.

(** The data properties of a prototype, as far as the model has them. *)
Definition proto_has (p : proto) (k : string) : bool :=
  match p with
  | ErrorProto _ => String.eqb k "name" || String.eqb k "message"
  | _ => false
  end.

(** [k in v]: own or inherited property of an object; on anything else
    the operator throws. *)
Definition has_property (k : string) (v : value) : completion bool :=
  match v with
  | VObj p props => Normal (bool_decide (is_Some (props !! k)) || proto_has p k)
  | VUndefined =>
      Throw (TypeError ("Cannot use 'in' operator to search for '" ++ k ++ "' in undefined"))
  | VNull =>
      Throw (TypeError ("Cannot use 'in' operator to search for '" ++ k ++ "' in null"))
  | VBool b =>
      Throw (TypeError ("Cannot use 'in' operator to search for '" ++ k ++ "' in "
                          ++ (if b then "true" else "false")))
  | VNum n =>
      Throw (TypeError ("Cannot use 'in' operator to search for '" ++ k ++ "' in "
                          ++ Number_toString Number_toString_large n))
  | VStr s =>
      Throw (TypeError ("Cannot use 'in' operator to search for '" ++ k ++ "' in " ++ s))
  end.

Definition Array_isArray (v : value) : bool :=
  match v with
  | VObj ArrayProto _ => true
  | _ => false
  end.

(** [assert(value, message)]. *)
Definition assert (b : bool) (message : string) : completion unit :=
  if b then Normal tt else Throw (assert_fail message).

Definition and_then {A B} (c : completion A) (k : A -> completion B) : completion B :=
  match c with
  | Normal a => k a
  | Throw e => Throw e
  end.

Definition validateMailgunResponse (result : value) : completion unit :=
  and_then (if String.eqb (typeof result) "object" then Normal tt
            else Throw (strictEqual_fail (typeof result) "object")) (fun _ =>
  and_then (has_property "is_valid" result) (fun b =>
  and_then (assert b "Response should have is_valid property") (fun _ =>
  and_then (has_property "result" result) (fun b =>
  and_then (assert b "Response should have result property") (fun _ =>
  and_then (has_property "risk" result) (fun b =>
  and_then (assert b "Response should have risk property") (fun _ =>
  and_then (get_prop result "reason") (fun reason =>
  assert (Array_isArray reason) "reason should be an array")))))))).

End Assert.

End Tests.

(** The error of a timed-out call. *)
Definition timeout_error : value :=
  VObj (ErrorProto "Error")
       (<["code" := VStr "ETIMEDOUT"]> {[ "message" := VStr "Request timed out" ]}).

(** What the [catch] block of [validateEmail] throws for a caught error
    object: the timeout error for one named [AbortError], the object
    itself otherwise, with code [EUNKNOWN] when it has no truthy code. *)
Definition rethrown (p : proto) (props : gmap string value) : value :=
  if strict_equals_str (default (proto_lookup p "name") (props !! "name")) "AbortError"
  then timeout_error
  else if truthy (default (proto_lookup p "code") (props !! "code"))
       then VObj p props
       else VObj p (<["code" := VStr "EUNKNOWN"]> props).

(** Further sample values, for closed instances. *)
Module Cases.

(** An error of the transport's own that is named like an abort. *)
Definition aborted_upstream : value :=
  VObj (ErrorProto "AbortError") {[ "message" := VStr "upstream closed the stream" ]}.

Definition throws_on_error : callback :=
  fun _ c =>
    match c with
    | CallResult _ => Normal VUndefined
    | CallError _ => Throw Sample.boom
    end.

Definition no_assert_fail (message : string) : value :=
  VObj (ErrorProto "AssertionError")
       (<["code" := VStr "ERR_ASSERTION"]> {[ "message" := VStr message ]}).

Definition no_strictEqual_fail (actual expected : string) : value :=
  no_assert_fail ("Expected values to be strictly equal: " ++ actual ++ " !== " ++ expected).

(** A full answer of the remote service. *)
Definition full_answer : Response :=
  {| status := 200;
     body := "";
     json := Some (Normal (VObj ObjectProto
                       (<["address" := VStr "test@example.com"]>
                          (<["result" := VStr "undeliverable"]>
                             (<["risk" := VStr "high"]>
                                {[ "reason" := VObj ArrayProto {[ "length" := VNum 0 ]} ]}))))) |}.

(** What the call resolves with on [Sample.deliverable]. *)
Definition deliverable_result : value :=
  VObj ObjectProto
       (<["is_valid" := VBool true]>
          (<["address" := VStr "test@example.com"]>
             (<["result" := VStr "deliverable"]> {[ "is_valid" := VBool false ]}))).

(** What the call rejects with on [Sample.network_error]. *)
Definition network_failure : value :=
  VObj (ErrorProto "Error")
       (<["code" := VStr "EUNKNOWN"]> {[ "message" := VStr "Network error" ]}).

Definition transport_error (o : request_options) : Legacy.request_completion :=
  {| Legacy.err := Sample.network_error; Legacy.response_body := "" |}.

Definition deliverable_body (o : request_options) : Legacy.request_completion :=
  {| Legacy.err := VNull; Legacy.response_body := body Sample.deliverable |}.

End Cases.

(** ** Properties of the value model *)

Lemma get_prop_insert_eq p (props : gmap string value) k x :
  get_prop (VObj p (<[k := x]> props)) k = Normal x.
Proof. unfold get_prop. by rewrite lookup_insert_eq. Qed.

Lemma get_prop_insert_ne p (props : gmap string value) k k' x :
  k ≠ k' -> get_prop (VObj p (<[k := x]> props)) k' = get_prop (VObj p props) k'.
Proof. intros Hne. unfold get_prop. by rewrite lookup_insert_ne. Qed.

Lemma strict_equals_str_true v s :
  strict_equals_str v s = true <-> v = VStr s.
Proof.
  destruct v; simpl; try (split; [discriminate | intros [=]]).
  rewrite String.eqb_eq. split; [intros -> | intros [=]]; congruence.
Qed.

Lemma calls_of_app t1 t2 : calls_of (t1 ++ t2) = (calls_of t1 ++ calls_of t2)%list.
Proof.
  induction t1 as [|ev t1 IH]; [reflexivity|].
  destruct ev; simpl; rewrite ?IH; reflexivity.
Qed.

Lemma ok_2xx r : ok r = true <-> (200 <= status r < 300)%Z.
Proof. unfold ok. rewrite andb_true_iff, Z.leb_le, Z.ltb_lt. tauto. Qed.

(** ** The fetch-based client: what one call does *)

(** Unfolds one call down to the transport's answer. *)
Ltac unfold_call U a e :=
  unfold validateEmail, bind, try_catch, setTimeout, await_fetch; cbn;
  match goal with
  | |- context [?f {| req_url := _; req_method := _; req_headers := _ |}] =>
      change (f _) with (f (outbound U a e))
  end.

(** Runs the rest of the call by cases on every value it inspects. *)
Ltac run_cases :=
  unfold lift, await, ret, throw, clearTimeout, get_prop, set_prop, new_Error, ToString; cbn;
  repeat (case_match; cbn in *; simplify_eq; try reflexivity).

Section ClientFacts.

Variable Number_toString_large : Z -> string.
Variable Object_toString : proto -> gmap string value -> option string.
Variable base64 : string -> string.
Variable URL_toString : URL -> string.
Variable fetch : request -> fetch_behaviour.

(** The timer is armed before the request goes out, so a transport that
    does not answer cannot keep a call from settling; a body that never
    ends can, the timer being cleared before the body is read. *)
Lemma validateEmail_pending authHeader email :
  fst (validateEmail Number_toString_large Object_toString URL_toString fetch
         authHeader email initial) = None
  <-> exists latency r,
        fetch (outbound URL_toString authHeader email) = Settles latency (Normal r) /\
        (latency < TIMEOUT_MS)%Z /\
        json r = None.
Proof.
  unfold_call URL_toString authHeader email.
  destruct (fetch _) as [latency [r|e]|] eqn:Hf; cbn.
  - destruct (latency <? TIMEOUT_MS)%Z eqn:Hl; cbn.
    + destruct (json r) as [c|] eqn:Hj.
      * split.
        -- intros H. exfalso. revert H. run_cases; discriminate.
        -- intros (latency' & r' & [= <- <-] & _ & Hn). congruence.
      * split; [intros _|].
        -- exists latency, r. split; [reflexivity|]. split; [by apply Z.ltb_lt | exact Hj].
        -- intros _. destruct (ok r); reflexivity.
    + split; [discriminate|].
      intros (latency' & r' & [= <- <-] & Hlt & _). apply Z.ltb_lt in Hlt. congruence.
  - split.
    + destruct (latency <? TIMEOUT_MS)%Z; run_cases; discriminate.
    + intros (latency' & r' & [=] & _).
  - split; [discriminate|]. intros (latency' & r' & [=] & _).
Qed.

(** [validateEmail] itself never touches the caller's callback. *)
Lemma validateEmail_calls authHeader email :
  calls_of (trace (snd (validateEmail Number_toString_large Object_toString URL_toString fetch
                          authHeader email initial))) = [].
Proof.
  unfold_call URL_toString authHeader email.
  destruct (fetch _) as [latency c|]; cbn.
  - destruct (latency <? TIMEOUT_MS)%Z; run_cases.
  - run_cases.
Qed.

Lemma validateEmail_trace_no_callback authHeader email :
  List.filter (fun ev => negb (is_callback ev))
    (trace (snd (validateEmail Number_toString_large Object_toString URL_toString fetch
                   authHeader email initial)))
  = trace (snd (validateEmail Number_toString_large Object_toString URL_toString fetch
                  authHeader email initial)).
Proof.
  unfold_call URL_toString authHeader email.
  destruct (fetch _) as [latency c|]; cbn.
  - destruct (latency <? TIMEOUT_MS)%Z; run_cases.
  - run_cases.
Qed.

Lemma validateEmail_trace_only_transport authHeader email :
  List.filter is_callback
    (trace (snd (validateEmail Number_toString_large Object_toString URL_toString fetch
                   authHeader email initial))) = [].
Proof.
  unfold_call URL_toString authHeader email.
  destruct (fetch _) as [latency c|]; cbn.
  - destruct (latency <? TIMEOUT_MS)%Z; run_cases.
  - run_cases.
Qed.

(** C1: a 2xx response whose body parses to an object (or array) is
    delivered with [is_valid] set by the client to the boolean
    [result === 'deliverable'], every other field left as received,
    whatever [is_valid] the body already had; so [is_valid] is true
    exactly when [result] is ['deliverable']. *)
Theorem C1_is_valid_is_result_deliverable authHeader email latency r p props :
  fetch (outbound URL_toString authHeader email) = Settles latency (Normal r) ->
  (latency < TIMEOUT_MS)%Z ->
  ok r = true ->
  json r = Some (Normal (VObj p props)) ->
  exists result verdict,
    fst (validateEmail Number_toString_large Object_toString URL_toString fetch authHeader email initial)
      = Some (Normal result) /\
    get_prop (VObj p props) "result" = Normal verdict /\
    result = VObj p (<["is_valid" := VBool (strict_equals_str verdict "deliverable")]> props) /\
    get_prop result "is_valid" = Normal (VBool (strict_equals_str verdict "deliverable")) /\
    get_prop result "result" = Normal verdict /\
    (get_prop result "is_valid" = Normal (VBool true) <-> verdict = VStr "deliverable").
Proof.
  intros Hf Hl Hok Hj. apply Z.ltb_lt in Hl.
  exists (VObj p (<["is_valid" :=
                     VBool (strict_equals_str
                              (default (proto_lookup p "result") (props !! "result"))
                              "deliverable")]> props)),
    (default (proto_lookup p "result") (props !! "result")).
  split.
  { unfold_call URL_toString authHeader email.
    rewrite Hf, Hl; cbn. rewrite Hok; cbn. rewrite Hj. reflexivity. }
  split; [reflexivity|]. split; [reflexivity|].
  split; [apply get_prop_insert_eq|].
  split; [by rewrite get_prop_insert_ne|].
  rewrite get_prop_insert_eq, <- strict_equals_str_true.
  split; [intros [=]; assumption | intros ->; reflexivity].
Qed.

(** C3 (amended): once the error body has been read, a non-2xx response
    makes the call fail with code [EAUTH] for status 401 and [EAPI] for
    any other status, with the HTTP status on the error; the message is
    the [message] field of the error body, converted to a string, when
    the body parses and that field is truthy, and the generic
    [HTTP error! status: <code>] otherwise. *)
Theorem C3_non_2xx_is_classified authHeader email latency r text :
  fetch (outbound URL_toString authHeader email) = Settles latency (Normal r) ->
  (latency < TIMEOUT_MS)%Z ->
  ok r = false ->
  expected_message Number_toString_large Object_toString r = Some (Normal text) ->
  exists e,
    fst (validateEmail Number_toString_large Object_toString URL_toString fetch
           authHeader email initial)
      = Some (Throw e) /\
    get_prop e "code" = Normal (VStr (if (status r =? 401)%Z then "EAUTH" else "EAPI")) /\
    get_prop e "status" = Normal (VNum (status r)) /\
    get_prop e "message" = Normal (VStr text).
Proof.
  intros Hf Hl Hok Hmsg. apply Z.ltb_lt in Hl.
  exists (VObj (ErrorProto "Error")
            (<["code" := VStr (if (status r =? 401)%Z then "EAUTH" else "EAPI")]>
               (<["status" := VNum (status r)]> {[ "message" := VStr text ]}))).
  split.
  { unfold_call URL_toString authHeader email.
    rewrite Hf, Hl; cbn. rewrite Hok; cbn.
    revert Hmsg. unfold expected_message.
    destruct (status r =? 401)%Z.
    all: destruct (json r) as [[data|e]|]; cbn; [| |discriminate].
    all: unfold lift, await, ret, throw, get_prop, set_prop, new_Error, ToString; cbn.
    all: repeat (case_match; cbn in *; simplify_eq; try reflexivity).
    all: intros; simplify_eq; reflexivity. }
  unfold get_prop. by simplify_map_eq.
Qed.

(** C4: when the transport has not answered by the expiry of the
    timer, the controller is aborted and the call fails with code
    [ETIMEDOUT], message [Request timed out] and no status; in every
    other case the call ends with its timer cleared and no abort. *)
Theorem C4_timeout_or_timer_cleared authHeader email :
  let run := validateEmail Number_toString_large Object_toString URL_toString fetch authHeader email initial in
  if responds_in_time (fetch (outbound URL_toString authHeader email)) then
    timer (snd run) = TimerCleared /\ aborted (snd run) = false
  else
    exists e,
      fst run = Some (Throw e) /\
      get_prop e "code" = Normal (VStr "ETIMEDOUT") /\
      get_prop e "message" = Normal (VStr "Request timed out") /\
      get_prop e "status" = Normal VUndefined /\
      aborted (snd run) = true /\
      timer (snd run) = TimerFired.
Proof.
  cbv zeta. unfold responds_in_time.
  unfold_call URL_toString authHeader email.
  destruct (fetch _) as [latency c|]; cbn.
  - destruct (latency <? TIMEOUT_MS)%Z; cbn.
    + split; run_cases.
    + eexists. repeat split; reflexivity.
  - eexists. repeat split; reflexivity.
Qed.

(** C5: a transport failure that is not an abort (the rejection is an
    error object whose [name] is not [AbortError]) makes the call fail
    with that same error: its code is kept when it has one and is
    [EUNKNOWN] otherwise, and its message is untouched. *)
Theorem C5_transport_failure_keeps_error authHeader email latency p props :
  fetch (outbound URL_toString authHeader email)
    = Settles latency (Throw (VObj p props)) ->
  (latency < TIMEOUT_MS)%Z ->
  get_prop (VObj p props) "name" <> Normal (VStr "AbortError") ->
  exists e code,
    get_prop (VObj p props) "code" = Normal code /\
    fst (validateEmail Number_toString_large Object_toString URL_toString fetch authHeader email initial)
      = Some (Throw e) /\
    get_prop e "code" = Normal (if truthy code then code else VStr "EUNKNOWN") /\
    get_prop e "message" = get_prop (VObj p props) "message" /\
    get_prop e "name" = get_prop (VObj p props) "name".
Proof.
  intros Hf Hl Hname. apply Z.ltb_lt in Hl.
  set (code := default (proto_lookup p "code") (props !! "code")).
  assert (Hneq : strict_equals_str
                   (default (proto_lookup p "name") (props !! "name")) "AbortError" = false).
  { apply not_true_is_false. rewrite strict_equals_str_true.
    intros Heq. apply Hname. unfold get_prop. by rewrite Heq. }
  exists (if truthy code then VObj p props
          else VObj p (<["code" := VStr "EUNKNOWN"]> props)), code.
  split; [reflexivity|]. split.
  { unfold_call URL_toString authHeader email.
    rewrite Hf, Hl; cbn. rewrite Hneq; cbn. fold code.
    destruct (truthy code); reflexivity. }
  destruct (truthy code) eqn:Hc.
  - repeat split; reflexivity.
  - split; [apply get_prop_insert_eq|].
    split; by rewrite get_prop_insert_ne.
Qed.

(** The promise convention hands back the call itself. *)
Lemma validator_promise authHeader email v :
  validator Number_toString_large Object_toString URL_toString fetch authHeader email (ArgValue v)
  = (ReturnsPromise
       (fst (validateEmail Number_toString_large Object_toString URL_toString fetch authHeader email initial)),
     snd (validateEmail Number_toString_large Object_toString URL_toString fetch authHeader email initial)).
Proof.
  unfold validator.
  destruct (validateEmail _ _ _ _ _ _ _) as [q s].
  destruct v; reflexivity.
Qed.

(** The callback convention: the state the call leaves, followed by the
    invocations of the callback. *)
Lemma validator_callback authHeader email (f : callback) c :
  fst (validateEmail Number_toString_large Object_toString URL_toString fetch authHeader email initial) = Some c ->
  let s := snd (validateEmail Number_toString_large Object_toString URL_toString fetch authHeader email initial) in
  let again :=
    match c, f [] (deliver c) with
    | Normal _, Throw e =>
        EvCallback (CallError e)
          :: match f [deliver c] (CallError e) with
             | Throw e' => [EvUnhandled e']
             | Normal _ => []
             end
    | Throw _, Throw e' => [EvUnhandled e']
    | _, Normal _ => []
    end in
  validator Number_toString_large Object_toString URL_toString fetch authHeader email (ArgFunction f)
  = (ReturnsUndefined,
     {| timer := timer s; aborted := aborted s;
        trace := (trace s ++ EvCallback (deliver c) :: again)%list |}).
Proof.
  intros Hc. cbv zeta.
  pose proof (validateEmail_calls authHeader email) as Hcalls.
  unfold validator.
  change (negb (String.eqb (typeof_arg (ArgFunction f)) "function")) with false.
  cbv iota.
  destruct (validateEmail _ _ _ _ _ _ _) as [q s]; cbn in *. subst q.
  destruct c as [result|e]; cbn; rewrite Hcalls.
  - destruct (f [] (CallResult result)) as [x|e]; cbn; [reflexivity|].
    rewrite calls_of_app, Hcalls; cbn.
    destruct (f _ _); unfold record_event; cbn; rewrite <- ?app_assoc; reflexivity.
  - destruct (f [] (CallError e)); unfold record_event; cbn;
      rewrite <- ?app_assoc; reflexivity.
Qed.

(** The callback is invoked once with the settlement of the call, and a
    second time exactly when the call resolved and the callback threw on
    the result. *)
Lemma validator_calls authHeader email (f : callback) c :
  fst (validateEmail Number_toString_large Object_toString URL_toString fetch authHeader email initial) = Some c ->
  calls_of (trace (snd (validator Number_toString_large Object_toString URL_toString fetch
                          authHeader email (ArgFunction f))))
  = deliver c :: match c, f [] (deliver c) with
                 | Normal _, Throw e => [CallError e]
                 | _, _ => []
                 end.
Proof.
  intros Hc.
  rewrite (validator_callback authHeader email f c Hc). cbn [snd trace].
  rewrite calls_of_app, validateEmail_calls.
  destruct c as [result|e]; cbn; destruct (f [] _); cbn;
    try destruct (f [_] _); reflexivity.
Qed.

(** The fetch-based client writes nothing to the console. *)
Lemma validateEmail_logs_nothing authHeader email :
  List.filter is_console_log
    (trace (snd (validateEmail Number_toString_large Object_toString URL_toString fetch
                   authHeader email initial))) = [].
Proof.
  unfold_call URL_toString authHeader email.
  destruct (fetch _) as [latency c|]; cbn.
  - destruct (latency <? TIMEOUT_MS)%Z; run_cases.
  - run_cases.
Qed.

(** [createValidator] binds only [apiKey]. *)
Lemma createValidator_ignores_options apiKey options :
  createValidator Number_toString_large Object_toString base64 URL_toString fetch apiKey options
  = createValidator Number_toString_large Object_toString base64 URL_toString fetch apiKey VUndefined.
Proof. reflexivity. Qed.

(** While the call has not settled the callback is not invoked. *)
Lemma validator_callback_pending authHeader email (f : callback) :
  fst (validateEmail Number_toString_large Object_toString URL_toString fetch
         authHeader email initial) = None ->
  validator Number_toString_large Object_toString URL_toString fetch
    authHeader email (ArgFunction f)
  = (ReturnsUndefined,
     snd (validateEmail Number_toString_large Object_toString URL_toString fetch
            authHeader email initial)).
Proof.
  intros Hc. unfold validator.
  change (negb (String.eqb (typeof_arg (ArgFunction f)) "function")) with false.
  cbv iota.
  destruct (validateEmail _ _ _ _ _ _ _) as [q s]; cbn in *. subst q. reflexivity.
Qed.

(** X17: for every email, transport and callback, the two conventions
    run the same call: the promise is the call's own, and with a
    callback the request, the timer and the abort are the same, followed
    by callback events only.  The first invocation of the callback hands
    over the settlement of the promise, [(null, r)] for a promise
    resolved with [r] and [(e)] for one rejected with [e]; while the
    promise has not settled the callback is not invoked. *)
Theorem conventions_share_the_call authHeader email (f : callback) :
  let run := validateEmail Number_toString_large Object_toString URL_toString fetch
               authHeader email initial in
  validator Number_toString_large Object_toString URL_toString fetch
    authHeader email (ArgValue VUndefined)
    = (ReturnsPromise (fst run), snd run) /\
  exists s',
    validator Number_toString_large Object_toString URL_toString fetch
      authHeader email (ArgFunction f)
      = (ReturnsUndefined, s') /\
    head (calls_of (trace s')) = option_map deliver (fst run) /\
    List.filter (fun ev => negb (is_callback ev)) (trace s') = trace (snd run) /\
    timer s' = timer (snd run) /\
    aborted s' = aborted (snd run).
Proof.
  cbv zeta. split; [apply validator_promise|].
  pose proof (validateEmail_calls authHeader email) as Hcalls.
  pose proof (validateEmail_trace_no_callback authHeader email) as Hfilter.
  destruct (fst (validateEmail Number_toString_large Object_toString URL_toString fetch
                   authHeader email initial)) as [c|] eqn:Hc.
  - pose proof (validator_callback authHeader email f c Hc) as Hcb. cbv zeta in Hcb.
    eexists. split; [exact Hcb|]. cbn [trace timer aborted].
    rewrite calls_of_app, List.filter_app, Hcalls, Hfilter.
    destruct c as [result|e]; cbn; destruct (f [] _); cbn;
      try destruct (f [_] _); cbn; rewrite ?app_nil_r; repeat split; reflexivity.
  - eexists. split; [apply (validator_callback_pending authHeader email f Hc)|].
    rewrite Hcalls, Hfilter. repeat split; reflexivity.
Qed.

(** C10: a second argument that is not a function, whatever value it
    is, gives the call made without a callback: the promise of
    [validateEmail] is returned and the value is never invoked (no
    callback event, no exception from calling it). *)
Theorem C10_non_function_second_argument authHeader email v :
  let run := validateEmail Number_toString_large Object_toString URL_toString fetch authHeader email initial in
  validator Number_toString_large Object_toString URL_toString fetch authHeader email (ArgValue v)
    = validator Number_toString_large Object_toString URL_toString fetch authHeader email (ArgValue VUndefined) /\
  validator Number_toString_large Object_toString URL_toString fetch authHeader email (ArgValue v)
    = (ReturnsPromise (fst run), snd run) /\
  List.filter is_callback
    (trace (snd (validator Number_toString_large Object_toString URL_toString fetch authHeader email (ArgValue v))))
    = [].
Proof.
  cbv zeta. rewrite !validator_promise. cbn [snd].
  repeat split. apply validateEmail_trace_only_transport.
Qed.

End ClientFacts.

(** ** Closed instances *)

Lemma C1_witness :
  exists result verdict,
    fst (validateEmail Sample.Number_toString_large Sample.Object_toString Sample.URL_toString
           (Sample.answers 120 Sample.deliverable)
           Sample.authHeader "test@example.com" initial) = Some (Normal result) /\
    get_prop (VObj ObjectProto
                (<["address" := VStr "test@example.com"]>
                   (<["result" := VStr "deliverable"]> {[ "is_valid" := VBool false ]})))
      "result" = Normal verdict /\
    result = VObj ObjectProto
               (<["is_valid" := VBool (strict_equals_str verdict "deliverable")]>
                  (<["address" := VStr "test@example.com"]>
                     (<["result" := VStr "deliverable"]> {[ "is_valid" := VBool false ]}))) /\
    get_prop result "is_valid" = Normal (VBool (strict_equals_str verdict "deliverable")) /\
    get_prop result "result" = Normal verdict /\
    (get_prop result "is_valid" = Normal (VBool true) <-> verdict = VStr "deliverable").
Proof.
  apply (C1_is_valid_is_result_deliverable
           Sample.Number_toString_large Sample.Object_toString Sample.URL_toString
           (Sample.answers 120 Sample.deliverable)
           Sample.authHeader "test@example.com" 120 Sample.deliverable).
  - reflexivity.
  - reflexivity.
  - reflexivity.
  - reflexivity.
Defined.

(** Counterexample to C3 as worded: the error bodies [{}] and
    [{message: ''}] of a 500 response parse as JSON, yet the error of
    the call carries the generic message, not the body's [message]
    field (absent in the first, the empty string in the second). *)
Lemma C3_counterexample :
  (exists data e,
     ok Sample.error_without_message = false /\
     json Sample.error_without_message = Some (Normal data) /\
     get_prop data "message" = Normal VUndefined /\
     fst (validateEmail Sample.Number_toString_large Sample.Object_toString Sample.URL_toString
            (Sample.answers 120 Sample.error_without_message)
            Sample.authHeader "test@example.com" initial) = Some (Throw e) /\
     get_prop e "message" = Normal (VStr "HTTP error! status: 500")) /\
  (exists data e,
     ok Sample.error_with_empty_message = false /\
     json Sample.error_with_empty_message = Some (Normal data) /\
     get_prop data "message" = Normal (VStr "") /\
     fst (validateEmail Sample.Number_toString_large Sample.Object_toString Sample.URL_toString
            (Sample.answers 120 Sample.error_with_empty_message)
            Sample.authHeader "test@example.com" initial) = Some (Throw e) /\
     get_prop e "message" = Normal (VStr "HTTP error! status: 500") /\
     get_prop e "message" <> get_prop data "message").
Proof.
  split.
  - eexists _, _. repeat split; vm_compute; reflexivity.
  - eexists _, _. repeat split; try (vm_compute; reflexivity).
    vm_compute. discriminate.
Qed.

Lemma C3_witness :
  exists e,
    fst (validateEmail Sample.Number_toString_large Sample.Object_toString Sample.URL_toString
           (Sample.answers 120 Sample.server_error)
           Sample.authHeader "test@example.com" initial) = Some (Throw e) /\
    get_prop e "code" = Normal (VStr "EAPI") /\
    get_prop e "status" = Normal (VNum 500) /\
    get_prop e "message" = Normal (VStr "Internal server error").
Proof.
  apply (C3_non_2xx_is_classified
           Sample.Number_toString_large Sample.Object_toString Sample.URL_toString
           (Sample.answers 120 Sample.server_error)
           Sample.authHeader "test@example.com" 120 Sample.server_error
           "Internal server error").
  - reflexivity.
  - reflexivity.
  - reflexivity.
  - reflexivity.
Defined.

Lemma C5_witness :
  exists e code,
    get_prop Sample.network_error "code" = Normal code /\
    fst (validateEmail Sample.Number_toString_large Sample.Object_toString Sample.URL_toString
           (Sample.fails 0 Sample.network_error)
           Sample.authHeader "test@example.com" initial) = Some (Throw e) /\
    get_prop e "code" = Normal (if truthy code then code else VStr "EUNKNOWN") /\
    get_prop e "message" = get_prop Sample.network_error "message" /\
    get_prop e "name" = get_prop Sample.network_error "name".
Proof.
  apply (C5_transport_failure_keeps_error
           Sample.Number_toString_large Sample.Object_toString Sample.URL_toString
           (Sample.fails 0 Sample.network_error)
           Sample.authHeader "test@example.com" 0).
  - reflexivity.
  - reflexivity.
  - vm_compute. discriminate.
Defined.

(** The two transport failures of the samples: the one without a code
    leaves as [EUNKNOWN], the one with [ECONNREFUSED] keeps it. *)
Example transport_failure_codes :
  (exists e,
     fst (validateEmail Sample.Number_toString_large Sample.Object_toString Sample.URL_toString
            (Sample.fails 0 Sample.network_error)
            Sample.authHeader "test@example.com" initial) = Some (Throw e) /\
     get_prop e "code" = Normal (VStr "EUNKNOWN") /\
     get_prop e "message" = Normal (VStr "Network error")) /\
  (exists e,
     fst (validateEmail Sample.Number_toString_large Sample.Object_toString Sample.URL_toString
            (Sample.fails 30 Sample.connection_refused)
            Sample.authHeader "test@example.com" initial) = Some (Throw e) /\
     get_prop e "code" = Normal (VStr "ECONNREFUSED")).
Proof.
  split; eexists; repeat split; vm_compute; reflexivity.
Qed.

(** Boundaries of the classification: a transport that never answers
    times out; a 2xx body that parses to [null] or to a number cannot
    take [is_valid] and is rejected as [EUNKNOWN]. *)
Example no_answer_times_out :
  exists e,
    fst (validateEmail Sample.Number_toString_large Sample.Object_toString Sample.URL_toString Sample.silent
           Sample.authHeader "test@example.com" initial) = Some (Throw e) /\
    get_prop e "code" = Normal (VStr "ETIMEDOUT").
Proof. eexists. split; vm_compute; reflexivity. Qed.

Example parsed_null_is_rejected :
  exists e,
    fst (validateEmail Sample.Number_toString_large Sample.Object_toString Sample.URL_toString
           (Sample.answers 120 {| status := 200; body := "null"; json := Some (Normal VNull) |})
           Sample.authHeader "test@example.com" initial) = Some (Throw e) /\
    get_prop e "name" = Normal (VStr "TypeError") /\
    get_prop e "code" = Normal (VStr "EUNKNOWN").
Proof. eexists. repeat split; vm_compute; reflexivity. Qed.

Example parsed_number_is_rejected :
  exists e,
    fst (validateEmail Sample.Number_toString_large Sample.Object_toString Sample.URL_toString
           (Sample.answers 120 {| status := 200; body := "42"; json := Some (Normal (VNum 42)) |})
           Sample.authHeader "test@example.com" initial) = Some (Throw e) /\
    get_prop e "message"
      = Normal (VStr "Cannot create property 'is_valid' on number '42'") /\
    get_prop e "code" = Normal (VStr "EUNKNOWN").
Proof. eexists. repeat split; vm_compute; reflexivity. Qed.

(** C2 (failing input): on the same deliverable answer the promise
    resolves, so it rejects with nothing, whereas a callback that throws
    when handed the result also receives an error: its own exception. *)
Theorem C2_throwing_callback_receives_an_error_the_promise_never_has :
  exists result s s',
    validator Sample.Number_toString_large Sample.Object_toString Sample.URL_toString
      (Sample.answers 120 Sample.deliverable)
      Sample.authHeader "test@example.com" (ArgValue VUndefined)
      = (ReturnsPromise (Some (Normal result)), s) /\
    validator Sample.Number_toString_large Sample.Object_toString Sample.URL_toString
      (Sample.answers 120 Sample.deliverable)
      Sample.authHeader "test@example.com" (ArgFunction Sample.throws_on_result)
      = (ReturnsUndefined, s') /\
    calls_of (trace s') = [CallResult result; CallError Sample.boom] /\
    In (CallError Sample.boom) (calls_of (trace s')).
Proof.
  eexists _, _, _. split; [vm_compute; reflexivity|].
  split; [vm_compute; reflexivity|].
  split; [reflexivity|]. right. left. reflexivity.
Qed.

(** C6 (failing input): a callback that throws when handed the result is
    invoked a second time, with its own exception as the error: two
    invocations for one call. *)
Theorem C6_throwing_callback_is_called_twice :
  exists result s,
    fst (validateEmail Sample.Number_toString_large Sample.Object_toString Sample.URL_toString
           (Sample.answers 120 Sample.deliverable)
           Sample.authHeader "test@example.com" initial) = Some (Normal result) /\
    createValidator Sample.Number_toString_large Sample.Object_toString Sample.encode Sample.URL_toString
      (Sample.answers 120 Sample.deliverable) "key" VUndefined
      "test@example.com" (ArgFunction Sample.throws_on_result) = (ReturnsUndefined, s) /\
    calls_of (trace s) = [CallResult result; CallError Sample.boom] /\
    length (calls_of (trace s)) = 2%nat.
Proof.
  eexists _, _. repeat split; vm_compute; reflexivity.
Qed.

(** C7 (failing input): a 403 answer leaves as [EAPI], not [EAUTH]; only
    status 401 is classified [EAUTH]. *)
Theorem C7_forbidden_is_classified_EAPI :
  exists e,
    fst (validateEmail Sample.Number_toString_large Sample.Object_toString Sample.URL_toString
           (Sample.answers 120 Sample.forbidden)
           Sample.authHeader "test@example.com" initial) = Some (Throw e) /\
    get_prop e "status" = Normal (VNum 403) /\
    get_prop e "code" = Normal (VStr "EAPI") /\
    get_prop e "code" <> Normal (VStr "EAUTH").
Proof.
  eexists. repeat split; try (vm_compute; reflexivity).
  vm_compute. discriminate.
Qed.

(** C8 (failing input): [createValidator('key', {timeout: 1,
    providerLookup: true})] is [createValidator('key')]: the timer is
    armed with 4000 ms, and an answer that takes 50 ms resolves the call
    instead of timing out. *)
Theorem C8_timeout_option_is_ignored :
  createValidator Sample.Number_toString_large Sample.Object_toString Sample.encode Sample.URL_toString
    (Sample.answers 50 Sample.deliverable) "key" Sample.options
  = createValidator Sample.Number_toString_large Sample.Object_toString Sample.encode Sample.URL_toString
      (Sample.answers 50 Sample.deliverable) "key" VUndefined /\
  exists result s,
    createValidator Sample.Number_toString_large Sample.Object_toString Sample.encode Sample.URL_toString
      (Sample.answers 50 Sample.deliverable) "key" Sample.options
      "test@example.com" (ArgValue VUndefined)
    = (ReturnsPromise (Some (Normal result)), s) /\
    get_prop Sample.options "timeout" = Normal (VNum 1) /\
    head (trace s) = Some (EvSetTimeout 4000) /\
    timer s = TimerCleared /\
    aborted s = false.
Proof.
  split; [reflexivity|].
  eexists _, _. repeat split; vm_compute; reflexivity.
Qed.

(** C9 (failing input): on a 200 answer whose body is an HTML page, the
    fetch-based client rejects with the parse error, [EUNKNOWN] added
    and nothing else: the body is neither logged nor attached.  The
    legacy client logs the body, and hands over the error without a
    code. *)
Theorem C9_unparsable_body_is_not_reported :
  let run := validateEmail Sample.Number_toString_large Sample.Object_toString Sample.URL_toString
               (Sample.answers 120 Sample.gateway_page)
               Sample.authHeader "test@example.com" initial in
  let legacy := Legacy.send Sample.JSON_parse Sample.request
                  "key" "test@example.com" (ArgFunction Sample.quiet) in
  (exists e,
     fst run = Some (Throw e) /\
     get_prop e "code" = Normal (VStr "EUNKNOWN") /\
     e = VObj (ErrorProto "SyntaxError")
           (<["code" := VStr "EUNKNOWN"]>
              {[ "message" := VStr "Unexpected token < in JSON at position 0" ]}) /\
     List.filter is_console_log (trace (snd run)) = []) /\
  List.filter is_console_log (trace legacy)
    = [EvConsoleLog "Unable to Parse MailGun Response: <html>502 Bad Gateway</html>"] /\
  calls_of (trace legacy) = [CallError Sample.SyntaxError] /\
  get_prop Sample.SyntaxError "code" = Normal VUndefined.
Proof.
  cbv zeta. split.
  - eexists. repeat split; vm_compute; reflexivity.
  - repeat split; vm_compute; reflexivity.
Qed.


(** ** Further properties of the fetch-based client *)

(** Runs a hypothesis on the settlement of a call by cases. *)
Ltac run_cases_in H :=
  unfold lift, await, ret, throw, clearTimeout, get_prop, set_prop, new_Error, ToString in H;
  cbn in H;
  repeat (case_match; cbn in *; simplify_eq).

Section MoreClientFacts.

Variable Number_toString_large : Z -> string.
Variable Object_toString : proto -> gmap string value -> option string.
Variable base64 : string -> string.
Variable URL_toString : URL -> string.
Variable fetch : request -> fetch_behaviour.

(** One call sends one request. *)
Lemma validateEmail_requests authHeader email :
  List.filter is_fetch
    (trace (snd (validateEmail Number_toString_large Object_toString URL_toString fetch authHeader email initial)))
  = [EvFetch (outbound URL_toString authHeader email)].
Proof.
  unfold_call URL_toString authHeader email.
  destruct (fetch _) as [latency c|]; cbn.
  - destruct (latency <? TIMEOUT_MS)%Z; run_cases.
  - run_cases.
Qed.

(** A rejection of the transport with an error object, in time. *)
Lemma validateEmail_fetch_rejects authHeader email latency p props :
  fetch (outbound URL_toString authHeader email) = Settles latency (Throw (VObj p props)) ->
  (latency <? TIMEOUT_MS)%Z = true ->
  validateEmail Number_toString_large Object_toString URL_toString fetch authHeader email initial
  = (Some (Throw (rethrown p props)),
     {| timer := TimerCleared; aborted := false;
        trace := [EvSetTimeout TIMEOUT_MS; EvFetch (outbound URL_toString authHeader email);
                  EvClearTimeout] |}).
Proof.
  intros Hf Hl. unfold_call URL_toString authHeader email.
  rewrite Hf, Hl; cbn. unfold rethrown.
  destruct (strict_equals_str _ _); cbn; [reflexivity|].
  destruct (truthy _); reflexivity.
Qed.

(** A 2xx answer, in time, whose [json()] throws an error object. *)
Lemma validateEmail_json_throws authHeader email latency r p props :
  fetch (outbound URL_toString authHeader email) = Settles latency (Normal r) ->
  (latency <? TIMEOUT_MS)%Z = true ->
  ok r = true ->
  json r = Some (Throw (VObj p props)) ->
  validateEmail Number_toString_large Object_toString URL_toString fetch authHeader email initial
  = (Some (Throw (rethrown p props)),
     {| timer := TimerCleared; aborted := false;
        trace := [EvSetTimeout TIMEOUT_MS; EvFetch (outbound URL_toString authHeader email);
                  EvClearTimeout; EvClearTimeout] |}).
Proof.
  intros Hf Hl Hok Hj. unfold_call URL_toString authHeader email.
  rewrite Hf, Hl; cbn. rewrite Hok; cbn. rewrite Hj; cbn. unfold rethrown.
  destruct (strict_equals_str _ _); cbn; [reflexivity|].
  destruct (truthy _); reflexivity.
Qed.

(** X1: whichever convention is used and whatever the callback does,
    one invocation of a validator sends exactly one request: a GET of
    the validation endpoint with [address=email] as its only query
    parameter, the Basic credential of [api:apiKey] and the JSON accept
    header.  Nothing is retried. *)
Theorem createValidator_sends_one_request apiKey options email (a : arg) :
  List.filter is_fetch
    (trace (snd (createValidator Number_toString_large Object_toString base64 URL_toString fetch
                   apiKey options email a)))
  = [EvFetch
       {| req_url :=
            URL_toString {| href := "https://api.mailgun.net/v3/address/validate";
                            searchParams := [("address", email)] |};
          req_method := "GET";
          req_headers := [("Authorization", "Basic " ++ base64 ("api:" ++ apiKey));
                          ("Accept", "application/json")] |}].
Proof.
  unfold createValidator.
  pose proof (validateEmail_requests ("Basic " ++ base64 ("api:" ++ apiKey)) email) as Hreq.
  destruct a as [v|f].
  - rewrite validator_promise. exact Hreq.
  - destruct (fst (validateEmail Number_toString_large Object_toString URL_toString fetch
                     ("Basic " ++ base64 ("api:" ++ apiKey)) email initial))
      as [c|] eqn:Hc.
    + rewrite (validator_callback _ _ _ _ _ _ f c Hc). cbn [snd trace].
      rewrite List.filter_app, Hreq.
      destruct c as [result|e]; cbn; destruct (f [] _); cbn;
        try destruct (f [_] _); reflexivity.
    + rewrite (validator_callback_pending _ _ _ _ _ _ f Hc). exact Hreq.
Qed.

(** X2: a call fails to settle in exactly one case, an answer that came
    in time and whose body never ends (the timer is cleared before the
    body is read); a transport that does not answer is cut off by the
    timer.  In every case the timer is not left armed: it ends cleared
    with no abort, or fired with the controller aborted. *)
Theorem validateEmail_settles_unless_body_hangs authHeader email :
  let run := validateEmail Number_toString_large Object_toString URL_toString fetch
               authHeader email initial in
  (fst run = None
   <-> exists latency r,
         fetch (outbound URL_toString authHeader email) = Settles latency (Normal r) /\
         (latency < TIMEOUT_MS)%Z /\
         json r = None) /\
  (timer (snd run) = TimerCleared /\ aborted (snd run) = false \/
   timer (snd run) = TimerFired /\ aborted (snd run) = true).
Proof.
  cbv zeta. split; [apply validateEmail_pending|].
  unfold_call URL_toString authHeader email.
  destruct (fetch _) as [latency c|]; cbn.
  - destruct (latency <? TIMEOUT_MS)%Z; cbn.
    + left. split; run_cases.
    + right. split; reflexivity.
  - right. split; reflexivity.
Qed.

(** X3: a call resolves only on an answer that came in time, with a 2xx
    status and a body parsed to an object; what it resolves with is that
    object with a boolean [is_valid]. *)
Theorem validateEmail_resolves_only_on_2xx_object authHeader email result :
  fst (validateEmail Number_toString_large Object_toString URL_toString fetch authHeader email initial)
    = Some (Normal result) ->
  exists latency r p props b,
    fetch (outbound URL_toString authHeader email) = Settles latency (Normal r) /\
    (latency < TIMEOUT_MS)%Z /\
    (200 <= status r < 300)%Z /\
    json r = Some (Normal (VObj p props)) /\
    result = VObj p (<["is_valid" := VBool b]> props) /\
    get_prop result "is_valid" = Normal (VBool b).
Proof.
  unfold_call URL_toString authHeader email.
  destruct (fetch _) as [latency [r|e]|] eqn:Hf; cbn.
  - destruct (latency <? TIMEOUT_MS)%Z eqn:Hl; cbn; [|discriminate].
    destruct (ok r) eqn:Hok; cbn.
    + destruct (json r) as [[[| |b|n|m|p props]|e]|] eqn:Hj; cbn;
        try discriminate; try (intros H; run_cases_in H; fail).
      intros [= <-]. eexists latency, r, p, props, _.
      split; [reflexivity|]. split; [by apply Z.ltb_lt|].
      split; [by apply ok_2xx|]. split; [exact Hj|].
      split; [reflexivity|]. apply get_prop_insert_eq.
    + intros H; run_cases_in H.
  - destruct (latency <? TIMEOUT_MS)%Z; cbn; intros H; run_cases_in H.
  - discriminate.
Qed.

Lemma rethrown_code p props :
  exists code,
    get_prop (rethrown p props) "code" = Normal code /\
    truthy code = true /\
    (code = VStr "ETIMEDOUT" \/ code = VStr "EUNKNOWN" \/
     get_prop (VObj p props) "code" = Normal code).
Proof.
  unfold rethrown.
  destruct (strict_equals_str _ _).
  - exists (VStr "ETIMEDOUT"). repeat split; auto.
  - destruct (truthy _) eqn:Hc.
    + eexists. split; [reflexivity|]. split; [exact Hc|]. right; right; reflexivity.
    + exists (VStr "EUNKNOWN"). split; [apply get_prop_insert_eq|]. split; auto.
Qed.

(** X4: when the transport rejects, and [response.json()] throws, only
    with objects, every rejection of a call carries a truthy code:
    [EAUTH], [EAPI], [ETIMEDOUT], [EUNKNOWN], or the code the thrown
    error already had. *)
Theorem rejections_are_classified authHeader email e :
  (forall e0, thrown_by (fetch (outbound URL_toString authHeader email)) = Some e0 ->
              is_object e0 = true) ->
  fst (validateEmail Number_toString_large Object_toString URL_toString fetch authHeader email initial)
    = Some (Throw e) ->
  exists code,
    get_prop e "code" = Normal code /\
    truthy code = true /\
    (code = VStr "EAUTH" \/ code = VStr "EAPI" \/
     code = VStr "ETIMEDOUT" \/ code = VStr "EUNKNOWN" \/
     exists e0, thrown_by (fetch (outbound URL_toString authHeader email)) = Some e0 /\
                get_prop e0 "code" = Normal code).
Proof.
  intros Hobj.
  destruct (fetch (outbound URL_toString authHeader email))
    as [latency [r|e0]|] eqn:Hf; cbn in Hobj.
  - destruct (latency <? TIMEOUT_MS)%Z eqn:Hl.
    + destruct (ok r) eqn:Hok.
      * destruct (json r) as [[d|e0]|] eqn:Hj;
          [| |unfold_call URL_toString authHeader email;
              rewrite Hf, Hl; cbn; rewrite Hok; cbn; rewrite Hj; discriminate].
        -- unfold_call URL_toString authHeader email.
           rewrite Hf, Hl; cbn. rewrite Hok; cbn. rewrite Hj; cbn.
           destruct d; cbn; intros [= <-];
             exists (VStr "EUNKNOWN"); repeat split; auto 6.
        -- specialize (Hobj e0 eq_refl). destruct e0 as [| | | | |p props]; try discriminate.
           rewrite (validateEmail_json_throws _ _ _ _ _ _ Hf Hl Hok Hj). intros [= <-].
           destruct (rethrown_code p props) as (code & Hg & Ht & Hcases).
           exists code. split; [exact Hg|]. split; [exact Ht|].
           destruct Hcases as [->|[->|Hk]]; [auto 6 | auto 6 |].
           do 4 right. exists (VObj p props).
           split; [cbn; rewrite Hok, Hj; reflexivity | exact Hk].
      * unfold_call URL_toString authHeader email.
        rewrite Hf, Hl; cbn. rewrite Hok; cbn.
        intros H. run_cases_in H;
          eexists; (split; [reflexivity|]); split; auto 7.
    + unfold_call URL_toString authHeader email. rewrite Hf, Hl; cbn.
      intros [= <-]. exists (VStr "ETIMEDOUT"). repeat split; auto 6.
  - destruct (latency <? TIMEOUT_MS)%Z eqn:Hl.
    + specialize (Hobj e0 eq_refl). destruct e0 as [| | | | |p props]; try discriminate.
      rewrite (validateEmail_fetch_rejects _ _ _ _ _ Hf Hl). intros [= <-].
      destruct (rethrown_code p props) as (code & Hg & Ht & Hcases).
      exists code. split; [exact Hg|]. split; [exact Ht|].
      destruct Hcases as [->|[->|Hk]]; [auto 6 | auto 6 |].
      do 4 right. exists (VObj p props). split; [reflexivity | exact Hk].
    + unfold_call URL_toString authHeader email. rewrite Hf, Hl; cbn.
      intros [= <-]. exists (VStr "ETIMEDOUT"). repeat split; auto 6.
  - unfold_call URL_toString authHeader email. rewrite Hf; cbn.
    intros [= <-]. exists (VStr "ETIMEDOUT"). repeat split; auto 6.
Qed.

(** X5: a transport that rejects with something that is not an object
    (a string, a number, [null], ...) makes the call reject with a
    [TypeError] raised inside the [catch] block: that rejection carries
    no code. *)
Theorem non_object_rejection_is_unclassified authHeader email latency v :
  fetch (outbound URL_toString authHeader email) = Settles latency (Throw v) ->
  (latency < TIMEOUT_MS)%Z ->
  is_object v = false ->
  exists e,
    fst (validateEmail Number_toString_large Object_toString URL_toString fetch authHeader email initial)
      = Some (Throw e) /\
    get_prop e "name" = Normal (VStr "TypeError") /\
    get_prop e "code" = Normal VUndefined.
Proof.
  intros Hf Hl Hv. apply Z.ltb_lt in Hl.
  unfold_call URL_toString authHeader email. rewrite Hf, Hl; cbn.
  destruct v; try discriminate; cbn; eexists; repeat split; reflexivity.
Qed.

(** X6: a rejection of the transport itself that is named [AbortError]
    is reported as a timeout, although the answer came in time: the
    call rejects with [ETIMEDOUT] and [Request timed out], its timer
    cleared and its controller not aborted. *)
Theorem abort_named_rejection_reads_as_timeout authHeader email latency p props :
  fetch (outbound URL_toString authHeader email) = Settles latency (Throw (VObj p props)) ->
  (latency < TIMEOUT_MS)%Z ->
  get_prop (VObj p props) "name" = Normal (VStr "AbortError") ->
  let run := validateEmail Number_toString_large Object_toString URL_toString fetch authHeader email initial in
  exists e,
    fst run = Some (Throw e) /\
    get_prop e "code" = Normal (VStr "ETIMEDOUT") /\
    get_prop e "message" = Normal (VStr "Request timed out") /\
    timer (snd run) = TimerCleared /\
    aborted (snd run) = false.
Proof.
  intros Hf Hl Hname. apply Z.ltb_lt in Hl. cbv zeta.
  rewrite (validateEmail_fetch_rejects _ _ _ _ _ Hf Hl).
  unfold rethrown. injection Hname as ->. cbn.
  eexists. repeat split; reflexivity.
Qed.

(** X7: on a 2xx answer whose [json()] throws an error object not named
    [AbortError], the call rejects with that same error: its code is kept
    when it has one and is [EUNKNOWN] otherwise, message, name and status
    are as thrown, and nothing is written to the console. *)
Theorem parse_failure_keeps_error authHeader email latency r p props :
  fetch (outbound URL_toString authHeader email) = Settles latency (Normal r) ->
  (latency < TIMEOUT_MS)%Z ->
  ok r = true ->
  json r = Some (Throw (VObj p props)) ->
  get_prop (VObj p props) "name" <> Normal (VStr "AbortError") ->
  let run := validateEmail Number_toString_large Object_toString URL_toString fetch authHeader email initial in
  exists e code,
    get_prop (VObj p props) "code" = Normal code /\
    fst run = Some (Throw e) /\
    get_prop e "code" = Normal (if truthy code then code else VStr "EUNKNOWN") /\
    get_prop e "message" = get_prop (VObj p props) "message" /\
    get_prop e "name" = get_prop (VObj p props) "name" /\
    get_prop e "status" = get_prop (VObj p props) "status" /\
    List.filter is_console_log (trace (snd run)) = [].
Proof.
  intros Hf Hl Hok Hj Hname. apply Z.ltb_lt in Hl. cbv zeta.
  rewrite (validateEmail_json_throws _ _ _ _ _ _ Hf Hl Hok Hj). cbn [fst snd trace].
  assert (Hneq : strict_equals_str
                   (default (proto_lookup p "name") (props !! "name")) "AbortError" = false).
  { apply not_true_is_false. rewrite strict_equals_str_true.
    intros Heq. apply Hname. unfold get_prop. by rewrite Heq. }
  unfold rethrown. rewrite Hneq.
  exists (if truthy (default (proto_lookup p "code") (props !! "code"))
          then VObj p props else VObj p (<["code" := VStr "EUNKNOWN"]> props)),
    (default (proto_lookup p "code") (props !! "code")).
  split; [reflexivity|]. split; [reflexivity|].
  destruct (truthy _) eqn:Hc.
  - repeat split; reflexivity.
  - split; [apply get_prop_insert_eq|].
    repeat split; try by rewrite get_prop_insert_ne.
Qed.

(** X8: a callback that always returns normally is invoked exactly once
    when the call settles, with the settlement of the call and after
    everything else the call does, and is not invoked while the call has
    not settled; nothing is left unhandled. *)
Theorem well_behaved_callback_called_once authHeader email (f : callback) :
  returns_normally f ->
  let run := validateEmail Number_toString_large Object_toString URL_toString fetch
               authHeader email initial in
  exists s,
    validator Number_toString_large Object_toString URL_toString fetch
      authHeader email (ArgFunction f)
      = (ReturnsUndefined, s) /\
    trace s = (trace (snd run)
                 ++ match fst run with
                    | Some c => [EvCallback (deliver c)]
                    | None => []
                    end)%list /\
    calls_of (trace s) = match fst run with
                         | Some c => [deliver c]
                         | None => []
                         end.
Proof.
  intros Hf. cbv zeta.
  pose proof (validateEmail_calls Number_toString_large Object_toString URL_toString fetch
                authHeader email) as Hcalls.
  destruct (fst (validateEmail Number_toString_large Object_toString URL_toString fetch
                   authHeader email initial)) as [c|] eqn:Hc.
  - pose proof (validator_callback _ _ _ _ _ _ f c Hc) as Hcb. cbv zeta in Hcb.
    destruct (Hf [] (deliver c)) as [v Hv].
    eexists. split; [exact Hcb|]. cbn [trace].
    split.
    + destruct c; rewrite Hv; reflexivity.
    + rewrite calls_of_app, Hcalls. destruct c; rewrite Hv; reflexivity.
  - eexists. split; [apply (validator_callback_pending _ _ _ _ _ _ f Hc)|].
    rewrite app_nil_r, Hcalls. split; reflexivity.
Qed.

(** X9: when the call resolves and the callback throws on the result,
    the callback is invoked a second time with its own exception as the
    error; if it throws again, that exception is left unhandled. *)
Theorem callback_throwing_on_result_is_called_again authHeader email (f : callback) result e :
  fst (validateEmail Number_toString_large Object_toString URL_toString fetch authHeader email initial)
    = Some (Normal result) ->
  f [] (CallResult result) = Throw e ->
  exists s,
    validator Number_toString_large Object_toString URL_toString fetch authHeader email (ArgFunction f)
      = (ReturnsUndefined, s) /\
    trace s
      = (trace (snd (validateEmail Number_toString_large Object_toString URL_toString fetch
                       authHeader email initial))
           ++ EvCallback (CallResult result) :: EvCallback (CallError e)
           :: escaping (f [CallResult result] (CallError e)))%list /\
    calls_of (trace s) = [CallResult result; CallError e].
Proof.
  intros Hc Hthrow.
  pose proof (validator_callback _ _ _ _ _ _ f _ Hc) as Hcb. cbv zeta in Hcb.
  cbn [deliver] in Hcb. rewrite Hthrow in Hcb.
  eexists. split; [exact Hcb|]. cbn [trace].
  split.
  - unfold escaping. destruct (f [CallResult result] (CallError e)); reflexivity.
  - rewrite calls_of_app, validateEmail_calls.
    destruct (f [CallResult result] (CallError e)); reflexivity.
Qed.

(** X10: when the call rejects and the callback throws on the error, the
    callback is not invoked again: its exception is left as an unhandled
    rejection. *)
Theorem callback_throwing_on_error_is_unhandled authHeader email (f : callback) e e' :
  fst (validateEmail Number_toString_large Object_toString URL_toString fetch authHeader email initial)
    = Some (Throw e) ->
  f [] (CallError e) = Throw e' ->
  exists s,
    validator Number_toString_large Object_toString URL_toString fetch authHeader email (ArgFunction f)
      = (ReturnsUndefined, s) /\
    trace s
      = (trace (snd (validateEmail Number_toString_large Object_toString URL_toString fetch
                       authHeader email initial))
           ++ [EvCallback (CallError e); EvUnhandled e'])%list /\
    calls_of (trace s) = [CallError e].
Proof.
  intros Hc Hthrow.
  pose proof (validator_callback _ _ _ _ _ _ f _ Hc) as Hcb. cbv zeta in Hcb.
  cbn [deliver] in Hcb. rewrite Hthrow in Hcb.
  eexists. split; [exact Hcb|]. cbn [trace].
  split; [reflexivity|].
  rewrite calls_of_app, validateEmail_calls. reflexivity.
Qed.

(** X18: a non-2xx answer whose error body has a truthy [message] that
    is an object which cannot be converted to a string does not leave as
    an HTTP error: [new Error] throws, and the call rejects with that
    [TypeError], code [EUNKNOWN] and no status. *)
Theorem unconvertible_message_hides_the_status authHeader email latency r data p props :
  fetch (outbound URL_toString authHeader email) = Settles latency (Normal r) ->
  (latency < TIMEOUT_MS)%Z ->
  ok r = false ->
  json r = Some (Normal data) ->
  get_prop data "message" = Normal (VObj p props) ->
  Object_toString p props = None ->
  exists e,
    fst (validateEmail Number_toString_large Object_toString URL_toString fetch
           authHeader email initial) = Some (Throw e) /\
    get_prop e "name" = Normal (VStr "TypeError") /\
    get_prop e "message" = Normal (VStr "Cannot convert object to primitive value") /\
    get_prop e "code" = Normal (VStr "EUNKNOWN") /\
    get_prop e "status" = Normal VUndefined.
Proof.
  intros Hf Hl Hok Hj Hm Hconv. apply Z.ltb_lt in Hl.
  unfold_call URL_toString authHeader email.
  rewrite Hf, Hl; cbn. rewrite Hok; cbn. rewrite Hj; cbn.
  rewrite Hm; cbn.
  unfold lift, new_Error, ToString. rewrite Hconv. cbn.
  eexists. repeat split; reflexivity.
Qed.

(** X16: the effects of a call come in one order: the timer is armed
    with [TIMEOUT_MS], then the request goes out, and the call ends by
    clearing the timer (once, or twice when an error is thrown after the
    answer arrived); the controller is aborted, just before, exactly when
    the answer did not come in time. *)
Theorem call_trace_shape authHeader email :
  exists rest,
    trace (snd (validateEmail Number_toString_large Object_toString URL_toString fetch authHeader email initial))
    = ([EvSetTimeout 4000; EvFetch (outbound URL_toString authHeader email)] ++ rest)%list /\
    if responds_in_time (fetch (outbound URL_toString authHeader email))
    then rest = [EvClearTimeout] \/ rest = [EvClearTimeout; EvClearTimeout]
    else rest = [EvAbort; EvClearTimeout].
Proof.
  unfold responds_in_time.
  unfold_call URL_toString authHeader email.
  destruct (fetch _) as [latency c|]; cbn.
  - destruct (latency <? TIMEOUT_MS)%Z; cbn.
    + run_cases; eexists; (split; [reflexivity|]); auto.
    + eexists. split; reflexivity.
  - eexists. split; reflexivity.
Qed.

End MoreClientFacts.

(** ** Properties of the legacy client *)

Section LegacyFacts.

Variable JSON_parse : string -> completion value.
Variable request : request_options -> Legacy.request_completion.

(** X11: with a callback that always returns normally, the legacy client
    sends its one request and invokes the callback exactly once: with the
    transport's error when there is one, else with the parsed body as it
    is (no field is added), else with the parse error as thrown, after
    logging the raw body.  Nothing is logged in the first two cases. *)
Theorem legacy_well_behaved_callback_called_once apiKey email (f : callback) :
  returns_normally f ->
  let r := request (legacy_options apiKey email) in
  trace (Legacy.send JSON_parse request apiKey email (ArgFunction f))
  = EvRequest (legacy_options apiKey email)
      :: if truthy (Legacy.err r) then [EvCallback (CallError (Legacy.err r))]
         else match JSON_parse (Legacy.response_body r) with
              | Normal result => [EvCallback (CallResult result)]
              | Throw e =>
                  [EvConsoleLog ("Unable to Parse MailGun Response: "
                                   ++ Legacy.response_body r);
                   EvCallback (CallError e)]
              end.
Proof.
  intros Hf. cbv zeta. unfold Legacy.send, Legacy.on_completion.
  fold (legacy_options apiKey email).
  destruct (truthy _); cbn.
  - destruct (Hf [] (CallError (Legacy.err (request (legacy_options apiKey email)))))
      as [v ->]. reflexivity.
  - destruct (JSON_parse _) as [result|e]; cbn.
    + destruct (Hf [] (CallResult result)) as [v ->]. reflexivity.
    + destruct (Hf [] (CallError e)) as [v ->]. reflexivity.
Qed.

(** X12: when the body parses and the callback throws on the result, the
    legacy client logs the body as unparsable and invokes the callback a
    second time, with the callback's own exception as the error. *)
Theorem legacy_callback_throwing_on_result apiKey email (f : callback) result e :
  let r := request (legacy_options apiKey email) in
  truthy (Legacy.err r) = false ->
  JSON_parse (Legacy.response_body r) = Normal result ->
  f [] (CallResult result) = Throw e ->
  trace (Legacy.send JSON_parse request apiKey email (ArgFunction f))
  = ([EvRequest (legacy_options apiKey email);
      EvCallback (CallResult result);
      EvConsoleLog ("Unable to Parse MailGun Response: " ++ Legacy.response_body r);
      EvCallback (CallError e)]
       ++ escaping (f [CallResult result] (CallError e)))%list.
Proof.
  cbv zeta. intros Herr Hparse Hthrow.
  unfold Legacy.send, Legacy.on_completion.
  fold (legacy_options apiKey email).
  rewrite Herr, Hparse; cbn. rewrite Hthrow; cbn.
  destruct (f [CallResult result] (CallError e)); reflexivity.
Qed.

(** X13: a second argument that is neither [undefined] nor a function
    does not stop the legacy client from sending its request; the
    attempt to call it then ends in an uncaught [TypeError], and no
    promise is returned. *)
Theorem legacy_non_function_callback_is_called this_validator apiKey email v :
  v <> VUndefined ->
  exists s,
    Legacy.validator JSON_parse request this_validator apiKey email (ArgValue v)
      = (ReturnsUndefined, s) /\
    List.filter is_request (trace s) = [EvRequest (legacy_options apiKey email)] /\
    calls_of (trace s) = [] /\
    last (trace s) = Some (EvUnhandled (TypeError "cb is not a function")).
Proof.
  intros Hv. eexists. split.
  - destruct v; try reflexivity. contradiction.
  - unfold Legacy.send, Legacy.on_completion.
    fold (legacy_options apiKey email).
    destruct (truthy _); cbn; [repeat split; reflexivity|].
    destruct (JSON_parse _); cbn; repeat split; reflexivity.
Qed.

(** X14: without a callback, the legacy client called as the [validator]
    method of an object returns a promise settled by the one request:
    rejected with the transport's error or the parse error, resolved
    with the parsed body.  Called as a plain function it sends no request
    at all and the promise rejects with a [TypeError]. *)
Theorem legacy_promise_convention apiKey email :
  let r := request (legacy_options apiKey email) in
  (exists s,
     Legacy.validator JSON_parse request true apiKey email (ArgValue VUndefined)
       = (ReturnsPromise
            (Some (if truthy (Legacy.err r) then Throw (Legacy.err r)
                   else match JSON_parse (Legacy.response_body r) with
                        | Normal result => Normal result
                        | Throw e => if truthy e then Throw e else Normal VUndefined
                        end)), s) /\
     List.filter is_request (trace s) = [EvRequest (legacy_options apiKey email)]) /\
  (exists e,
     Legacy.validator JSON_parse request false apiKey email (ArgValue VUndefined)
       = (ReturnsPromise (Some (Throw e)), initial) /\
     get_prop e "name" = Normal (VStr "TypeError") /\
     List.filter is_request (trace initial) = []).
Proof.
  cbv zeta. split.
  - unfold Legacy.validator, Legacy.send, Legacy.on_completion.
    fold (legacy_options apiKey email).
    destruct (truthy (Legacy.err _)) eqn:Herr; cbn.
    + rewrite Herr. eexists. split; reflexivity.
    + destruct (JSON_parse _) as [result|e]; cbn; eexists; split; reflexivity.
  - eexists. repeat split; reflexivity.
Qed.

End LegacyFacts.

(** ** The test helper on what the client delivers *)

Section TestFacts.

Variable Number_toString_large : Z -> string.
Variable Object_toString : proto -> gmap string value -> option string.
Variable assert_fail : string -> value.
Variable strictEqual_fail : string -> string -> value.
Variable URL_toString : URL -> string.
Variable fetch : request -> fetch_behaviour.

Lemma has_property_insert_ne k k' p (props : gmap string value) x :
  k <> k' ->
  Tests.has_property Number_toString_large k' (VObj p (<[k := x]> props))
  = Tests.has_property Number_toString_large k' (VObj p props).
Proof. intros Hne. unfold Tests.has_property. by rewrite lookup_insert_ne. Qed.

(** X15: what a call resolves with always has [is_valid], so it passes
    [validateMailgunResponse] exactly when the body itself has [result]
    and [risk] and an array as [reason]; a body without [is_valid] is no
    obstacle. *)
Theorem resolved_result_passes_helper authHeader email latency r p props :
  fetch (outbound URL_toString authHeader email) = Settles latency (Normal r) ->
  (latency < TIMEOUT_MS)%Z ->
  ok r = true ->
  json r = Some (Normal (VObj p props)) ->
  exists result,
    fst (validateEmail Number_toString_large Object_toString URL_toString fetch authHeader email initial)
      = Some (Normal result) /\
    Tests.has_property Number_toString_large "is_valid" result = Normal true /\
    (Tests.validateMailgunResponse Number_toString_large assert_fail strictEqual_fail result
       = Normal tt
     <-> Tests.has_property Number_toString_large "result" (VObj p props) = Normal true /\
         Tests.has_property Number_toString_large "risk" (VObj p props) = Normal true /\
         exists elements,
           get_prop (VObj p props) "reason" = Normal (VObj ArrayProto elements)).
Proof.
  intros Hf Hl Hok Hj. apply Z.ltb_lt in Hl.
  eexists. split.
  { unfold_call URL_toString authHeader email.
    rewrite Hf, Hl; cbn. rewrite Hok; cbn. rewrite Hj. reflexivity. }
  split.
  { unfold Tests.has_property. rewrite lookup_insert_eq. reflexivity. }
  unfold Tests.validateMailgunResponse. cbn [typeof String.eqb Ascii.eqb Bool.eqb Tests.and_then].
  rewrite (has_property_insert_ne "is_valid" "result") by done.
  rewrite (has_property_insert_ne "is_valid" "risk") by done.
  rewrite get_prop_insert_ne by done.
  unfold Tests.has_property at 1. rewrite lookup_insert_eq.
  cbn [Tests.and_then Tests.assert bool_decide orb].
  unfold Tests.has_property, get_prop.
  destruct (bool_decide (is_Some (props !! "result")) || Tests.proto_has p "result");
    cbn; [|split; [discriminate | intros ([=] & _)]].
  destruct (bool_decide (is_Some (props !! "risk")) || Tests.proto_has p "risk");
    cbn; [|split; [discriminate | intros (_ & [=] & _)]].
  destruct (default (proto_lookup p "reason") (props !! "reason")) as [| | | | |[] elements];
    cbn; split; try discriminate; try (intros (_ & _ & elements' & [=])); eauto.
Qed.

End TestFacts.

(** ** Closed instances of the further properties *)

Lemma validateEmail_resolves_only_on_2xx_object_witness :
  exists latency r p props b,
    Sample.answers 120 Sample.deliverable
      (outbound Sample.URL_toString Sample.authHeader "test@example.com")
      = Settles latency (Normal r) /\
    (latency < TIMEOUT_MS)%Z /\
    (200 <= status r < 300)%Z /\
    json r = Some (Normal (VObj p props)) /\
    Cases.deliverable_result = VObj p (<["is_valid" := VBool b]> props) /\
    get_prop Cases.deliverable_result "is_valid" = Normal (VBool b).
Proof.
  apply (validateEmail_resolves_only_on_2xx_object
           Sample.Number_toString_large Sample.Object_toString Sample.URL_toString
           (Sample.answers 120 Sample.deliverable)
           Sample.authHeader "test@example.com" Cases.deliverable_result).
  vm_compute. reflexivity.
Defined.

Lemma rejections_are_classified_witness :
  exists code,
    get_prop Sample.connection_refused "code" = Normal code /\
    truthy code = true /\
    (code = VStr "EAUTH" \/ code = VStr "EAPI" \/
     code = VStr "ETIMEDOUT" \/ code = VStr "EUNKNOWN" \/
     exists e0,
       thrown_by (Sample.fails 30 Sample.connection_refused
                    (outbound Sample.URL_toString Sample.authHeader "test@example.com"))
         = Some e0 /\
       get_prop e0 "code" = Normal code).
Proof.
  apply (rejections_are_classified
           Sample.Number_toString_large Sample.Object_toString Sample.URL_toString
           (Sample.fails 30 Sample.connection_refused)
           Sample.authHeader "test@example.com" Sample.connection_refused).
  - intros e0 [= <-]. reflexivity.
  - vm_compute. reflexivity.
Defined.

Lemma non_object_rejection_is_unclassified_witness :
  exists e,
    fst (validateEmail Sample.Number_toString_large Sample.Object_toString Sample.URL_toString
           (Sample.fails 10 (VStr "socket hang up"))
           Sample.authHeader "test@example.com" initial) = Some (Throw e) /\
    get_prop e "name" = Normal (VStr "TypeError") /\
    get_prop e "code" = Normal VUndefined.
Proof.
  apply (non_object_rejection_is_unclassified
           Sample.Number_toString_large Sample.Object_toString Sample.URL_toString
           (Sample.fails 10 (VStr "socket hang up"))
           Sample.authHeader "test@example.com" 10 (VStr "socket hang up")).
  - reflexivity.
  - reflexivity.
  - reflexivity.
Defined.

Lemma abort_named_rejection_reads_as_timeout_witness :
  let run := validateEmail Sample.Number_toString_large Sample.Object_toString Sample.URL_toString
               (Sample.fails 10 Cases.aborted_upstream)
               Sample.authHeader "test@example.com" initial in
  exists e,
    fst run = Some (Throw e) /\
    get_prop e "code" = Normal (VStr "ETIMEDOUT") /\
    get_prop e "message" = Normal (VStr "Request timed out") /\
    timer (snd run) = TimerCleared /\
    aborted (snd run) = false.
Proof.
  apply (abort_named_rejection_reads_as_timeout
           Sample.Number_toString_large Sample.Object_toString Sample.URL_toString
           (Sample.fails 10 Cases.aborted_upstream)
           Sample.authHeader "test@example.com" 10
           (ErrorProto "AbortError") {[ "message" := VStr "upstream closed the stream" ]}).
  - reflexivity.
  - reflexivity.
  - reflexivity.
Defined.

Lemma parse_failure_keeps_error_witness :
  let run := validateEmail Sample.Number_toString_large Sample.Object_toString Sample.URL_toString
               (Sample.answers 120 Sample.gateway_page)
               Sample.authHeader "test@example.com" initial in
  exists e code,
    get_prop Sample.SyntaxError "code" = Normal code /\
    fst run = Some (Throw e) /\
    get_prop e "code" = Normal (if truthy code then code else VStr "EUNKNOWN") /\
    get_prop e "message" = get_prop Sample.SyntaxError "message" /\
    get_prop e "name" = get_prop Sample.SyntaxError "name" /\
    get_prop e "status" = get_prop Sample.SyntaxError "status" /\
    List.filter is_console_log (trace (snd run)) = [].
Proof.
  apply (parse_failure_keeps_error
           Sample.Number_toString_large Sample.Object_toString Sample.URL_toString
           (Sample.answers 120 Sample.gateway_page)
           Sample.authHeader "test@example.com" 120 Sample.gateway_page
           (ErrorProto "SyntaxError")
           {[ "message" := VStr "Unexpected token < in JSON at position 0" ]}).
  - reflexivity.
  - reflexivity.
  - reflexivity.
  - reflexivity.
  - vm_compute. discriminate.
Defined.

Lemma well_behaved_callback_called_once_witness :
  let run := validateEmail Sample.Number_toString_large Sample.Object_toString
               Sample.URL_toString (Sample.answers 120 Sample.deliverable)
               Sample.authHeader "test@example.com" initial in
  exists s,
    validator Sample.Number_toString_large Sample.Object_toString Sample.URL_toString
      (Sample.answers 120 Sample.deliverable)
      Sample.authHeader "test@example.com" (ArgFunction Sample.quiet)
      = (ReturnsUndefined, s) /\
    trace s = (trace (snd run)
                 ++ match fst run with
                    | Some c => [EvCallback (deliver c)]
                    | None => []
                    end)%list /\
    calls_of (trace s) = match fst run with
                         | Some c => [deliver c]
                         | None => []
                         end.
Proof.
  apply (well_behaved_callback_called_once
           Sample.Number_toString_large Sample.Object_toString Sample.URL_toString
           (Sample.answers 120 Sample.deliverable)
           Sample.authHeader "test@example.com" Sample.quiet).
  intros history c. exists VUndefined. reflexivity.
Defined.

Lemma callback_throwing_on_result_is_called_again_witness :
  exists s,
    validator Sample.Number_toString_large Sample.Object_toString Sample.URL_toString
      (Sample.answers 120 Sample.deliverable)
      Sample.authHeader "test@example.com" (ArgFunction Sample.throws_on_result)
      = (ReturnsUndefined, s) /\
    trace s
      = (trace (snd (validateEmail Sample.Number_toString_large Sample.Object_toString Sample.URL_toString
                       (Sample.answers 120 Sample.deliverable)
                       Sample.authHeader "test@example.com" initial))
           ++ EvCallback (CallResult Cases.deliverable_result)
           :: EvCallback (CallError Sample.boom)
           :: escaping (Sample.throws_on_result
                          [CallResult Cases.deliverable_result]
                          (CallError Sample.boom)))%list /\
    calls_of (trace s) = [CallResult Cases.deliverable_result; CallError Sample.boom].
Proof.
  apply (callback_throwing_on_result_is_called_again
           Sample.Number_toString_large Sample.Object_toString Sample.URL_toString
           (Sample.answers 120 Sample.deliverable)
           Sample.authHeader "test@example.com" Sample.throws_on_result
           Cases.deliverable_result Sample.boom).
  - vm_compute. reflexivity.
  - reflexivity.
Defined.

Lemma callback_throwing_on_error_is_unhandled_witness :
  exists s,
    validator Sample.Number_toString_large Sample.Object_toString Sample.URL_toString
      (Sample.fails 0 Sample.network_error)
      Sample.authHeader "test@example.com" (ArgFunction Cases.throws_on_error)
      = (ReturnsUndefined, s) /\
    trace s
      = (trace (snd (validateEmail Sample.Number_toString_large Sample.Object_toString Sample.URL_toString
                       (Sample.fails 0 Sample.network_error)
                       Sample.authHeader "test@example.com" initial))
           ++ [EvCallback (CallError Cases.network_failure); EvUnhandled Sample.boom])%list /\
    calls_of (trace s) = [CallError Cases.network_failure].
Proof.
  apply (callback_throwing_on_error_is_unhandled
           Sample.Number_toString_large Sample.Object_toString Sample.URL_toString
           (Sample.fails 0 Sample.network_error)
           Sample.authHeader "test@example.com" Cases.throws_on_error
           Cases.network_failure Sample.boom).
  - vm_compute. reflexivity.
  - reflexivity.
Defined.

Lemma legacy_well_behaved_callback_called_once_witness :
  let r := Sample.request (legacy_options "key" "test@example.com") in
  trace (Legacy.send Sample.JSON_parse Sample.request "key" "test@example.com"
           (ArgFunction Sample.quiet))
  = EvRequest (legacy_options "key" "test@example.com")
      :: if truthy (Legacy.err r) then [EvCallback (CallError (Legacy.err r))]
         else match Sample.JSON_parse (Legacy.response_body r) with
              | Normal result => [EvCallback (CallResult result)]
              | Throw e =>
                  [EvConsoleLog ("Unable to Parse MailGun Response: "
                                   ++ Legacy.response_body r);
                   EvCallback (CallError e)]
              end.
Proof.
  apply (legacy_well_behaved_callback_called_once
           Sample.JSON_parse Sample.request "key" "test@example.com" Sample.quiet).
  intros history c. exists VUndefined. reflexivity.
Defined.

Lemma legacy_callback_throwing_on_result_witness :
  let r := Cases.deliverable_body (legacy_options "key" "test@example.com") in
  trace (Legacy.send Sample.JSON_parse Cases.deliverable_body "key" "test@example.com"
           (ArgFunction Sample.throws_on_result))
  = ([EvRequest (legacy_options "key" "test@example.com");
      EvCallback (CallResult
                    (VObj ObjectProto
                       (<["address" := VStr "test@example.com"]>
                          (<["result" := VStr "deliverable"]>
                             {[ "is_valid" := VBool false ]}))));
      EvConsoleLog ("Unable to Parse MailGun Response: " ++ Legacy.response_body r);
      EvCallback (CallError Sample.boom)]
       ++ escaping (Sample.throws_on_result
                      [CallResult
                         (VObj ObjectProto
                            (<["address" := VStr "test@example.com"]>
                               (<["result" := VStr "deliverable"]>
                                  {[ "is_valid" := VBool false ]})))]
                      (CallError Sample.boom)))%list.
Proof.
  apply (legacy_callback_throwing_on_result
           Sample.JSON_parse Cases.deliverable_body "key" "test@example.com"
           Sample.throws_on_result).
  - reflexivity.
  - reflexivity.
  - reflexivity.
Defined.

Lemma legacy_non_function_callback_is_called_witness :
  exists s,
    Legacy.validator Sample.JSON_parse Sample.request false "key" "test@example.com"
      (ArgValue (VStr "not a function"))
      = (ReturnsUndefined, s) /\
    List.filter is_request (trace s) = [EvRequest (legacy_options "key" "test@example.com")] /\
    calls_of (trace s) = [] /\
    last (trace s) = Some (EvUnhandled (TypeError "cb is not a function")).
Proof.
  apply (legacy_non_function_callback_is_called
           Sample.JSON_parse Sample.request false "key" "test@example.com"
           (VStr "not a function")).
  discriminate.
Defined.

Lemma resolved_result_passes_helper_witness :
  exists result,
    fst (validateEmail Sample.Number_toString_large Sample.Object_toString Sample.URL_toString
           (Sample.answers 120 Cases.full_answer)
           Sample.authHeader "test@example.com" initial) = Some (Normal result) /\
    Tests.has_property Sample.Number_toString_large "is_valid" result = Normal true /\
    (Tests.validateMailgunResponse Sample.Number_toString_large
       Cases.no_assert_fail Cases.no_strictEqual_fail result = Normal tt
     <-> Tests.has_property Sample.Number_toString_large "result"
           (VObj ObjectProto
              (<["address" := VStr "test@example.com"]>
                 (<["result" := VStr "undeliverable"]>
                    (<["risk" := VStr "high"]>
                       {[ "reason" := VObj ArrayProto {[ "length" := VNum 0 ]} ]}))))
         = Normal true /\
         Tests.has_property Sample.Number_toString_large "risk"
           (VObj ObjectProto
              (<["address" := VStr "test@example.com"]>
                 (<["result" := VStr "undeliverable"]>
                    (<["risk" := VStr "high"]>
                       {[ "reason" := VObj ArrayProto {[ "length" := VNum 0 ]} ]}))))
         = Normal true /\
         exists elements,
           get_prop
             (VObj ObjectProto
                (<["address" := VStr "test@example.com"]>
                   (<["result" := VStr "undeliverable"]>
                      (<["risk" := VStr "high"]>
                         {[ "reason" := VObj ArrayProto {[ "length" := VNum 0 ]} ]}))))
             "reason" = Normal (VObj ArrayProto elements)).
Proof.
  apply (resolved_result_passes_helper
           Sample.Number_toString_large Sample.Object_toString
           Cases.no_assert_fail Cases.no_strictEqual_fail
           Sample.URL_toString (Sample.answers 120 Cases.full_answer)
           Sample.authHeader "test@example.com" 120 Cases.full_answer).
  - reflexivity.
  - reflexivity.
  - reflexivity.
  - reflexivity.
Defined.

Lemma unconvertible_message_hides_the_status_witness :
  exists e,
    fst (validateEmail Sample.Number_toString_large Sample.Object_toString
           Sample.URL_toString (Sample.answers 120 Sample.error_with_object_message)
           Sample.authHeader "test@example.com" initial) = Some (Throw e) /\
    get_prop e "name" = Normal (VStr "TypeError") /\
    get_prop e "message" = Normal (VStr "Cannot convert object to primitive value") /\
    get_prop e "code" = Normal (VStr "EUNKNOWN") /\
    get_prop e "status" = Normal VUndefined.
Proof.
  apply (unconvertible_message_hides_the_status
           Sample.Number_toString_large Sample.Object_toString Sample.URL_toString
           (Sample.answers 120 Sample.error_with_object_message)
           Sample.authHeader "test@example.com" 120 Sample.error_with_object_message
           (VObj ObjectProto {[ "message" := VObj ObjectProto {[ "toString" := VNum 0 ]} ]})
           ObjectProto {[ "toString" := VNum 0 ]}).
  - reflexivity.
  - reflexivity.
  - reflexivity.
  - reflexivity.
  - reflexivity.
  - reflexivity.
Defined.
